(** * The-Toob: the upload page driver (the_toob/UploaderPage.py)

    A shallow embedding of the class [UploaderPage] and the proofs of the
    properties its specification states.

    The class drives a browser through Selenium.  The browser, the clock and
    the platform are outside the program, so they are an oracle [Env] whose
    answers may change with every interaction; the logger, the events sent
    to the browser and the crash directory on disk are the program's
    observable effects and are kept in the state.  Python exceptions are an
    error outcome, [try]/[except] is a combinator on computations. *)

From Stdlib Require Import ZArith QArith.QArith_base Ascii String List Bool Lia.
From stdpp Require Import base gmap strings list pretty.

(** * Python strings

    Text is modelled by [string]: a sequence of 8-bit characters read as the
    code points U+0000..U+00FF.  On that range [\d] matches exactly the ten
    ASCII digits and [str.lower] maps one character to one character
    (A-Z, and the Latin-1 capitals U+00C0..U+00DE except the sign U+00D7). *)
Module PyStr.

(** [\d] *)
Definition is_digit (c : ascii) : bool :=
  let n := nat_of_ascii c in (48 <=? n)%nat && (n <=? 57)%nat.

(** One character of [str.lower()]. *)
Definition lower_char (c : ascii) : ascii :=
  let n := nat_of_ascii c in
  if (65 <=? n)%nat && (n <=? 90)%nat then ascii_of_nat (n + 32)
  else if (192 <=? n)%nat && (n <=? 222)%nat && negb (n =? 215)%nat
       then ascii_of_nat (n + 32)
  else c.

(** [s.lower()] *)
Fixpoint lower (s : string) : string :=
  match s with
  | EmptyString => EmptyString
  | String c r => String (lower_char c) (lower r)
  end.

(** [s.startswith(p)] *)
Fixpoint startswith (p s : string) : bool :=
  match p, s with
  | EmptyString, _ => true
  | String a p', String b s' => if Ascii.eqb a b then startswith p' s' else false
  | String _ _, EmptyString => false
  end.

(** [needle in hay] on strings. *)
Fixpoint str_in (needle hay : string) : bool :=
  startswith needle hay ||
  match hay with
  | EmptyString => false
  | String _ r => str_in needle r
  end.

(** [s[:n]] *)
Fixpoint take (n : nat) (s : string) : string :=
  match n, s with
  | O, _ => EmptyString
  | S _, EmptyString => EmptyString
  | S n', String c r => String c (take n' r)
  end.

(** [s.replace(old, new)] for a non-empty [old]: the occurrences are taken
    from the left and do not overlap.  [skip] counts the characters of the
    occurrence just replaced that are still to be dropped. *)
Fixpoint replace_from (skip : nat) (old new s : string) : string :=
  match s with
  | EmptyString => EmptyString
  | String c r =>
      match skip with
      | S k => replace_from k old new r
      | O =>
          if startswith old s
          then new +:+ replace_from (String.length old - 1) old new r
          else String c (replace_from 0 old new r)
      end
  end.

(** With an empty [old] Python puts [new] before every character and at
    the end. *)
Fixpoint intersperse (new s : string) : string :=
  match s with
  | EmptyString => new
  | String c r => new +:+ String c (intersperse new r)
  end.

Definition replace (old new s : string) : string :=
  match old with
  | EmptyString => intersperse new s
  | String _ _ => replace_from 0 old new s
  end.

(** [s.split(sep)] for a separator of one character; [acc] is the segment
    read so far. *)
Fixpoint split_from (sep : ascii) (acc : string) (s : string) : list string :=
  match s with
  | EmptyString => [acc]
  | String c r =>
      if Ascii.eqb c sep then acc :: split_from sep EmptyString r
      else split_from sep (acc +:+ String c EmptyString) r
  end.

Definition split (sep : ascii) (s : string) : list string :=
  split_from sep EmptyString s.

(** [l[-1]] on the result of [split], which is never empty. *)
Definition last_item (l : list string) : string := List.last l EmptyString.

(** ** [re.search(r"(\d+)%", s)]

    [span_digits] reads the longest run of digits.  [\d+] is greedy and may
    give digits back, but a shorter run is followed by a digit, never by
    ["%"], so the longest run decides whether there is a match at a
    position.  [re_search] tries the positions from the left and returns
    group 1 of the first match. *)
Fixpoint span_digits (s : string) : string * string :=
  match s with
  | EmptyString => (EmptyString, EmptyString)
  | String c r =>
      if is_digit c
      then let (d, t) := span_digits r in (String c d, t)
      else (EmptyString, s)
  end.

Definition re_match (s : string) : option string :=
  match span_digits s with
  | (String c d, String "%" _) => Some (String c d)
  | _ => None
  end.

Fixpoint re_search (s : string) : option string :=
  match s with
  | EmptyString => None
  | String _ r =>
      match re_match s with
      | Some g => Some g
      | None => re_search r
      end
  end.

(** ** What the specification says about texts *)

Fixpoint all_digits (s : string) : bool :=
  match s with
  | EmptyString => true
  | String c r => is_digit c && all_digits r
  end.

(** The text has a part ["NN%"]. *)
Definition has_percentage (s : string) : Prop :=
  ∃ pre nn post,
    s = pre +:+ nn +:+ "%" +:+ post ∧ nn ≠ EmptyString ∧ all_digits nn = true.

Fixpoint ends_with_digit (s : string) : bool :=
  match s with
  | EmptyString => false
  | String c EmptyString => is_digit c
  | String _ r => ends_with_digit r
  end.

(** [nn] is the first percentage of the text: the whole run of digits in
    front of the first ["%"] that follows a digit. *)
Definition first_percentage (s nn : string) : Prop :=
  ∃ pre post,
    s = pre +:+ nn +:+ "%" +:+ post ∧ nn ≠ EmptyString ∧ all_digits nn = true ∧
    ends_with_digit pre = false ∧ ¬ has_percentage pre.

(** The capital of an ASCII small letter; other characters are kept. *)
Definition upper_of (c : ascii) : ascii :=
  let n := nat_of_ascii c in
  if (97 <=? n)%nat && (n <=? 122)%nat then ascii_of_nat (n - 32) else c.

(** [v] spells [p] up to the case of its letters. *)
Inductive case_variant : string → string → Prop :=
  | cv_empty : case_variant EmptyString EmptyString
  | cv_same c v p : case_variant v p → case_variant (String c v) (String c p)
  | cv_upper c v p :
      case_variant v p → case_variant (String (upper_of c) v) (String c p).

(** The text contains [phrase] in some letter case. *)
Definition contains_any_case (phrase text : string) : Prop :=
  ∃ pre mid post, text = pre +:+ mid +:+ post ∧ case_variant mid phrase.

(** The text has no ["/"]: as a name it stays in the directory it is
    joined to. *)
Fixpoint no_slash (s : string) : bool :=
  match s with
  | EmptyString => true
  | String c r => negb (Ascii.eqb c "/") && no_slash r
  end.

(** Characters below U+0080. *)
Definition is_ascii (c : ascii) : bool := (nat_of_ascii c <? 128)%nat.

Fixpoint plain (s : string) : bool :=
  match s with
  | EmptyString => true
  | String c r => is_ascii c && (Ascii.eqb (lower_char c) c) && plain r
  end.

End PyStr.

Import PyStr.

(** * Values, exceptions, the browser *)

(** The values a metadata dictionary holds. *)
Inductive PyVal :=
  | PNone
  | PBool (b : bool)
  | PStr (s : string)
  | PList (l : list string).

(** [bool(v)] *)
Definition truthy (v : PyVal) : bool :=
  match v with
  | PNone => false
  | PBool b => b
  | PStr s => negb (String.eqb s EmptyString)
  | PList l => match l with [] => false | _ :: _ => true end
  end.

(** [type(v).__name__] *)
Definition type_name (v : PyVal) : string :=
  match v with
  | PNone => "NoneType"
  | PBool _ => "bool"
  | PStr _ => "str"
  | PList _ => "list"
  end.

(** [sep.join(l)] *)
Fixpoint str_join (sep : string) (l : list string) : string :=
  match l with
  | [] => EmptyString
  | [x] => x
  | x :: r => x +:+ sep +:+ str_join sep r
  end.

(** ** [repr] and [str] of a value

    [repr] of a string puts it between single quotes, or between double
    quotes when it has a single quote and no double quote, and escapes the
    quote it uses, the backslash, tab, line feed, carriage return and the
    characters that are not printable: on U+0000..U+00FF these are the
    controls, U+007F..U+00A0 and the soft hyphen U+00AD. *)
Definition hex_digit (n : nat) : ascii :=
  if (n <? 10)%nat then ascii_of_nat (48 + n) else ascii_of_nat (87 + n).

Definition printable (c : ascii) : bool :=
  let n := nat_of_ascii c in
  ((32 <=? n)%nat && (n <=? 126)%nat) || ((161 <=? n)%nat && negb (n =? 173)%nat).

Definition backslash : ascii := ascii_of_nat 92.

Definition repr_char (quote c : ascii) : string :=
  let n := nat_of_ascii c in
  if Ascii.eqb c quote || Ascii.eqb c backslash
  then String backslash (String c EmptyString)
  else if (n =? 9)%nat then String backslash "t"
  else if (n =? 10)%nat then String backslash "n"
  else if (n =? 13)%nat then String backslash "r"
  else if printable c then String c EmptyString
  else String backslash
         (String "x" (String (hex_digit (n / 16))
                        (String (hex_digit (n mod 16)) EmptyString))).

Definition repr_str (s : string) : string :=
  let quote :=
    if str_in "'" s && negb (str_in (String (ascii_of_nat 34) EmptyString) s)
    then ascii_of_nat 34 else ascii_of_nat 39 in
  String quote
    (String.concat EmptyString (map (repr_char quote) (list_ascii_of_string s))
     +:+ String quote EmptyString).

(** [str(v)], as an f-string prints [v]. *)
Definition py_str (v : PyVal) : string :=
  match v with
  | PNone => "None"
  | PBool b => if b then "True" else "False"
  | PStr s => s
  | PList l => "[" +:+ str_join ", " (map repr_str l) +:+ "]"
  end.

(** The exceptions the module raises, catches or lets through. *)
Inductive Exn :=
  | TimeoutException (msg : string)
  | NoSuchElementException (msg : string)
  | WebDriverException (msg : string)
  | RuntimeError (msg : string)
  | FileExistsError (path : string)
  | KeyError (key : string)
  | AttributeError (msg : string)
  | TypeError (msg : string).

Definition newline : string := String (ascii_of_nat 10) EmptyString.
Definition dquote : string := String (ascii_of_nat 34) EmptyString.

(** [str(e)], as the f-strings print an exception. *)
Definition exn_str (e : Exn) : string :=
  match e with
  | TimeoutException m | NoSuchElementException m | WebDriverException m =>
      "Message: " +:+ m +:+ newline
  | RuntimeError m | AttributeError m | TypeError m => m
  | FileExistsError p => "[Errno 17] File exists: '" +:+ p +:+ "'"
  | KeyError k => "'" +:+ k +:+ "'"
  end.

Inductive Outcome (A : Type) :=
  | Return (a : A)
  | Raise (e : Exn).
Arguments Return {A} a.
Arguments Raise {A} e.

(** [selenium.webdriver.common.by.By], the strategies the module uses. *)
Inductive By := ID | XPATH | NAME.

(** A [WebElement] is a handle on a node of the page. *)
Inductive WebElement := Element (handle : nat).

(** The expected conditions [_find_element] is called with; both yield
    the element once they hold. *)
Inductive Condition := presence_of_element_located | element_to_be_clickable.

(** What [send_keys] types: characters and the special keys of [Keys]. *)
Inductive Key :=
  | KChar (c : ascii)
  | CONTROL
  | COMMAND
  | BACKSPACE
  | ENTER.

(** A Python string as the keys it types. *)
Definition keys_of (s : string) : list Key := map KChar (list_ascii_of_string s).

(** [datetime.datetime] *)
Record DateTime := {
  year : nat; month : nat; day : nat;
  hour : nat; minute : nat; second : nat
}.

Definition digit (n : nat) : ascii := ascii_of_nat (48 + n mod 10).
Definition pad2 (n : nat) : string :=
  String (digit (n / 10)) (String (digit n) EmptyString).
Definition pad4 (n : nat) : string :=
  String (digit (n / 1000)) (String (digit (n / 100)) (pad2 n)).

(** [t.strftime("%Y-%m-%d_%H-%M-%S")] *)
Definition strftime (t : DateTime) : string :=
  pad4 (year t) +:+ "-" +:+ pad2 (month t) +:+ "-" +:+ pad2 (day t) +:+ "_" +:+
  pad2 (hour t) +:+ "-" +:+ pad2 (minute t) +:+ "-" +:+ pad2 (second t).

(** The world outside the program.  Every answer depends on the number of
    interactions there have been so far, so the page may change between any
    two of them.
    - [until t c by v timeout]: [WebDriverWait(driver, timeout).until(c((by, v)))],
      [None] when the wait times out;
    - [until_all]: the same for [presence_of_all_elements_located], which
      yields the list [find_elements] gives; an empty list never satisfies
      the wait;
    - [find_element]: [driver.find_element], [None] when there is no such
      element;
    - [get_screenshot_as_png], [page_source]: may raise, as the handler in
      [_save_crash_report] expects. *)
Record Env := {
  until : nat → Condition → By → string → Z → option WebElement;
  until_all : nat → By → string → Z → list WebElement;
  find_element : nat → By → string → option WebElement;
  get_attribute : nat → WebElement → string → option string;
  text : nat → WebElement → string;
  is_displayed : nat → WebElement → bool;
  get_screenshot_as_png : nat → Outcome string;
  page_source : nat → Outcome string;
  now : nat → DateTime;
  platform_system : string
}.

Inductive Level := Debug | Warning | Error.

(** What the program does to the logger and to the browser. *)
Inductive Event :=
  | Log (level : Level) (msg : string)
  | ExecuteScript (script : string) (args : list WebElement)
  | Click (el : WebElement)
  | SendKeys (el : WebElement) (keys : list Key)
  | Sleep (seconds : Q).

(** The state the program changes: [tick] counts the interactions with the
    world, [trace] lists the events oldest first, [dirs] and [files] are
    the directories and the files (path to content) under the working
    directory. *)
Record State := {
  tick : nat;
  trace : list Event;
  dirs : gset string;
  files : gmap string string
}.

Definition bump (st : State) : State :=
  {| tick := S (tick st); trace := trace st; dirs := dirs st; files := files st |}.

Definition record (ev : Event) (st : State) : State :=
  {| tick := tick st; trace := trace st ++ [ev]; dirs := dirs st; files := files st |}.

Definition add_dir (p : string) (st : State) : State :=
  {| tick := tick st; trace := trace st; dirs := {[p]} ∪ dirs st; files := files st |}.

Definition put_file (p content : string) (st : State) : State :=
  {| tick := tick st; trace := trace st; dirs := dirs st;
     files := <[p := content]> (files st) |}.

(** * Computations: state and exceptions *)

Definition M (A : Type) : Type := State → Outcome A * State.

#[global] Instance M_ret : MRet M := λ A a st, (Return a, st).

#[global] Instance M_bind : MBind M := λ A B f m st,
  match m st with
  | (Return a, st') => f a st'
  | (Raise e, st') => (Raise e, st')
  end.

Definition raise {A} (e : Exn) : M A := λ st, (Raise e, st).

(** [try: body except ...: handler]: [handler e] is [None] when no clause
    catches [e]. *)
Definition try_except {A} (body : M A) (handler : Exn → option (M A)) : M A :=
  λ st,
    match body st with
    | (Return a, st') => (Return a, st')
    | (Raise e, st') =>
        match handler e with
        | Some h => h st'
        | None => (Raise e, st')
        end
    end.

(** An interaction that asks the world something. *)
Definition ask {A} (q : nat → A) : M A := λ st, (Return (q (tick st)), bump st).

(** An interaction that does something to the world. *)
Definition act (ev : Event) : M unit := λ st, (Return tt, bump (record ev st)).

(** [self.logger.debug / warning / error] *)
Definition log (level : Level) (msg : string) : M unit :=
  λ st, (Return tt, record (Log level msg) st).

(** [time.sleep] *)
Definition sleep (seconds : Q) : M unit := act (Sleep seconds).

(** [Path.mkdir(exist_ok=...)]: it raises when the path is there, unless
    the path is a directory and [exist_ok] is set.  The program only makes
    [crash] and, right after, a child of it, so the parent is always
    there.  A name that is taken is the one refusal the state can show;
    the other errors of the operating system (no permission, a disk that
    is full) are not in the model, and what is proved of a run that makes
    a directory is proved of a run in which the system makes it. *)
Definition mkdir (exist_ok : bool) (p : string) : M unit := λ st,
  if decide (p ∈ dirs st) then
    if exist_ok then (Return tt, st) else (Raise (FileExistsError p), st)
  else if decide (is_Some (files st !! p)) then (Raise (FileExistsError p), st)
  else (Return tt, add_dir p st).

(** Writing a file in a directory that exists. *)
Definition write_file (p content : string) : M unit :=
  λ st, (Return tt, put_file p content st).

(** [Path / name] and [str(path)] on POSIX. *)
Definition path_join (p name : string) : string := p +:+ "/" +:+ name.

(** [while True: body] with a bound on the number of iterations; [None]
    says that the bound was reached before the loop was left. *)
Inductive Ctl := Continue | Break.

Fixpoint while_true (fuel : nat) (body : M Ctl) : M (option unit) :=
  match fuel with
  | O => mret None
  | S n =>
      c ← body;
      match c with
      | Break => mret (Some tt)
      | Continue => while_true n body
      end
  end.

(** * The constants of [Constant.py]

    The class reads its locators, metadata keys and waiting times from the
    module [Constant]; whatever their values are, they are parameters of
    everything below. *)
Class Constant := {
  UPLOADING_STATUS_CONTAINER : string;
  USER_WAITING_TIME : Q;
  ACTION_WAIT_TIME : Q;
  TEXTBOX_ID : string;
  VIDEO_TITLE : string;
  VIDEO_DESCRIPTION : string;
  VIDEO_ALTERED_CONTENT : string;
  ALTERED_CONTENT_YES_RADIO : string;
  ALTERED_CONTENT_NO_RADIO : string;
  VIDEO_URL_ELEMENT : string;
  DONE_BUTTON : string;
  ERROR_CONTAINER : string
}.

(** * The class [UploaderPage] *)
Section UploaderPage.

Context `{K : Constant}.

(** [self.driver] and the platform; [self.metadata]. *)
Variable env : Env.
Variable metadata : gmap string PyVal.

(** [self.wait = WebDriverWait(self.driver, 20)] *)
Definition self_wait : Z := 20.

(** [wait.until(condition((by, value)))] for a wait of [timeout] seconds. *)
Definition wait_until (timeout : Z) (condition : Condition) (by_ : By)
    (value : string) : M WebElement :=
  r ← ask (λ t, until env t condition by_ value timeout);
  match r with
  | Some el => mret el
  | None => raise (TimeoutException EmptyString)
  end.

(** [wait.until(EC.presence_of_all_elements_located((by, value)))]: an
    empty list is false, so the wait goes on until it times out. *)
Definition wait_until_all (timeout : Z) (by_ : By) (value : string)
    : M (list WebElement) :=
  r ← ask (λ t, until_all env t by_ value timeout);
  match r with
  | [] => raise (TimeoutException EmptyString)
  | _ :: _ => mret r
  end.

(** [self.driver.save_screenshot(path)] *)
Definition save_screenshot (path : string) : M bool :=
  r ← ask (get_screenshot_as_png env);
  match r with
  | Return png => write_file path png;; mret true
  | Raise e => raise e
  end.

(** [self.driver.page_source] *)
Definition driver_page_source : M string :=
  r ← ask (page_source env);
  match r with
  | Return html => mret html
  | Raise e => raise e
  end.

(** [self.driver.find_element(by, value)] *)
Definition driver_find_element (by_ : By) (value : string) : M WebElement :=
  r ← ask (λ t, find_element env t by_ value);
  match r with
  | Some el => mret el
  | None => raise (NoSuchElementException EmptyString)
  end.

(** ** Core helper methods *)

Definition _save_crash_report (operation_name : string) : M unit :=
  let base_crash_dir := "crash" in
  mkdir true base_crash_dir;;
  t ← ask (now env);
  let timestamp := strftime t in
  let crash_dir_name := operation_name +:+ "_" +:+ timestamp in
  let crash_event_path := path_join base_crash_dir crash_dir_name in
  mkdir false crash_event_path;;
  try_except
    (let screenshot_path := path_join crash_event_path "crash_screenshot.png" in
     save_screenshot screenshot_path;;
     let html_path := path_join crash_event_path "crash_page.html" in
     (* open(html_path, "w") makes the file before the page is asked for *)
     write_file html_path EmptyString;;
     html ← driver_page_source;
     write_file html_path html;;
     log Error ("Crash report saved to: " +:+ crash_event_path))
    (λ e, Some (log Error ("Failed to save crash report: " +:+ exn_str e))).

(** The name [_find_element] gives the operation:
    [f"find_element_timeout_{value.replace('//', '').replace('/', '_')[:50]}"] *)
Definition timeout_operation_name (value : string) : string :=
  "find_element_timeout_"
  +:+ take 50 (replace "/" "_" (replace "//" EmptyString value)).

(** [self.wait if timeout is None else WebDriverWait(self.driver, timeout)] *)
Definition wait_for (timeout : option Z) : Z :=
  match timeout with None => self_wait | Some t => t end.

Definition _find_element (by_ : By) (value : string) (condition : Condition)
    (timeout : option Z) : M WebElement :=
  let wait := wait_for timeout in
  try_except
    (wait_until wait condition by_ value)
    (λ e,
       match e with
       | TimeoutException _ =>
           Some (let operation_name := timeout_operation_name value in
                 log Error
                   ("TimeoutException while trying to find element: " +:+ value);;
                 _save_crash_report operation_name;;
                 raise e)
       | _ => None
       end).

Definition click_script : string := "arguments[0].click();".

Definition _click_if_not_selected (locator : By * string) (log_message : string)
    : M unit :=
  element ← _find_element locator.1 locator.2 presence_of_element_located None;
  checked ← ask (λ t, get_attribute env t element "checked");
  match checked with
  | Some _ =>
      log Debug ("'" +:+ log_message +:+ "' is already selected. No action needed.")
  | None =>
      act (ExecuteScript click_script [element]);;
      log Debug ("Successfully selected '" +:+ log_message +:+ "'")
  end.

(** ** Page interaction methods *)

(** One pass through the body of the loop of
    [wait_for_upload_to_complete]. *)
Definition wait_iteration (short_timeout : Z) : M Ctl :=
  try_except
    (progress_element ←
       _find_element XPATH UPLOADING_STATUS_CONTAINER presence_of_element_located
         (Some short_timeout);
     progress_text ← ask (λ t, text env t progress_element);
     match re_search progress_text with
     | Some progress_value =>
         log Debug ("Upload progress: " +:+ progress_value +:+ "%")
     | None => log Debug ("Upload status: " +:+ progress_text)
     end;;
     let progress_text_compare := lower progress_text in
     if str_in "upload complete" progress_text_compare
        || str_in "checks complete" progress_text_compare
     then log Debug "Upload and processing finished.";; mret Break
     else sleep USER_WAITING_TIME;; mret Continue)
    (λ e,
       match e with
       | TimeoutException _ =>
           Some (log Warning
                   "Upload progress element not found. This might indicate an issue.";;
                 mret Break)
       | _ => None
       end).

Definition wait_for_upload_to_complete (fuel : nat) : M (option unit) :=
  log Debug "Waiting for the video to finish uploading...";;
  let short_timeout := 10%Z in
  while_true fuel (wait_iteration short_timeout).

(** [self.metadata[key]] *)
Definition metadata_item (key : string) : M PyVal :=
  match metadata !! key with
  | Some v => mret v
  | None => raise (KeyError key)
  end.

(** [self.metadata.get(key)] *)
Definition metadata_get (key : string) : PyVal :=
  default PNone (metadata !! key).

(** [v.replace(old, new)] is there for a [str] only; [str_with_replace]
    gives the string whose [replace] is called. *)
Definition str_with_replace (v : PyVal) : M string :=
  match v with
  | PStr s => mret s
  | _ =>
      raise (AttributeError
               ("'" +:+ type_name v +:+ "' object has no attribute 'replace'"))
  end.

(** ** Field helpers *)

Definition _clear_field (field : WebElement) : M unit :=
  act (Click field);;
  sleep ACTION_WAIT_TIME;;
  (if String.eqb (platform_system env) "Darwin"
   then act (SendKeys field (COMMAND :: keys_of "a"))
   else act (SendKeys field (CONTROL :: keys_of "a")));;
  sleep ACTION_WAIT_TIME;;
  act (SendKeys field [BACKSPACE]).

Definition _write_in_field (field : WebElement) (text_ : list Key)
    (select_all : bool) : M unit :=
  (if select_all then _clear_field field
   else act (Click field);; sleep ACTION_WAIT_TIME);;
  act (SendKeys field text_).

(** The keys [send_keys(v)] types for a metadata value: Selenium types a
    [str] character by character, a number, which a [bool] is, as its
    [str], and a list item by item; [None] cannot be iterated. *)
Definition keys_of_value (v : PyVal) : option (list Key) :=
  match v with
  | PNone => None
  | PBool _ => Some (keys_of (py_str v))
  | PStr s => Some (keys_of s)
  | PList l => Some (flat_map keys_of l)
  end.

(** [_write_in_field(field, v, select_all)] for a metadata value [v]:
    [send_keys] raises a [TypeError], with a message of the driver's, for a
    value it cannot type, after the field has been clicked or cleared. *)
Definition _write_value_in_field (field : WebElement) (v : PyVal)
    (select_all : bool) : M unit :=
  match keys_of_value v with
  | Some keys => _write_in_field field keys select_all
  | None =>
      (if select_all then _clear_field field
       else act (Click field);; sleep ACTION_WAIT_TIME);;
      raise (TypeError EmptyString)
  end.

(** [description.replace("\n", Keys.ENTER)] as keys. *)
Definition description_keys (description : string) : list Key :=
  map (λ c, if Ascii.eqb c (ascii_of_nat 10) then ENTER else KChar c)
      (list_ascii_of_string description).

Definition set_title_and_description : M unit :=
  try_except
    (textboxes ← wait_until_all self_wait ID TEXTBOX_ID;
     match textboxes with
     | title_field :: description_field :: _ =>
         title ← metadata_item VIDEO_TITLE;
         _write_value_in_field title_field title true;;
         log Debug ("The video title was set to "
                    +:+ dquote +:+ py_str title +:+ dquote);;
         description ← metadata_item VIDEO_DESCRIPTION ≫= str_with_replace;
         if negb (String.eqb description EmptyString)
         then _write_in_field description_field (description_keys description) true;;
              log Debug "Description filled."
         else mret tt
     | _ => raise (RuntimeError "Could not find title and description textboxes.")
     end)
    (λ e, Some (_save_crash_report "set_title_and_description_error";; raise e)).

Definition set_altered_content : M unit :=
  let is_altered := metadata_get VIDEO_ALTERED_CONTENT in
  match is_altered with
  | PNone => mret tt
  | _ =>
      let xpath :=
        if truthy is_altered then ALTERED_CONTENT_YES_RADIO
        else ALTERED_CONTENT_NO_RADIO in
      let log_message :=
        "Altered content: " +:+ (if truthy is_altered then "Yes" else "No") in
      _click_if_not_selected (XPATH, xpath) log_message
  end.

(** [bool(video_url_element)]: [WebElement] defines neither [__bool__] nor
    [__len__], so an element is true. *)
Definition element_truthy (el : WebElement) : bool := true.

Definition get_video_id : M (option string) :=
  video_url_element ←
    _find_element XPATH VIDEO_URL_ELEMENT presence_of_element_located None;
  if element_truthy video_url_element then
    href ← ask (λ t, get_attribute env t video_url_element "href");
    match href with
    | Some h => mret (Some (last_item (split "/" h)))
    | None => raise (AttributeError "'NoneType' object has no attribute 'split'")
    end
  else mret None.

Definition publish_video : M unit :=
  done_button ←
    _find_element ID DONE_BUTTON element_to_be_clickable (Some 7200%Z);
  try_except
    (error_dialog ← driver_find_element XPATH ERROR_CONTAINER;
     displayed ← @ask bool (λ t, is_displayed env t error_dialog);
     if displayed : bool then
       dialog_text ← ask (λ t, text env t error_dialog);
       @raise unit (RuntimeError ("Upload failed with error: " +:+ dialog_text))
     else mret tt)
    (λ _, Some (mret tt));;
  act (Click done_button);;
  log Debug "Publish button clicked".

End UploaderPage.

(** * Observations on a run *)

(** The state after [n] more interactions that left the events [evs]. *)
Definition after (n : nat) (evs : list Event) (st : State) : State :=
  {| tick := n + tick st; trace := trace st ++ evs;
     dirs := dirs st; files := files st |}.

(** Click events: a native click, or the synthetic click of
    [_click_if_not_selected]. *)
Definition is_click (ev : Event) : bool :=
  match ev with
  | Click _ => true
  | ExecuteScript script _ => String.eqb script click_script
  | _ => false
  end.

Definition clicks (tr : list Event) : nat := length (List.filter is_click tr).

(** [crash/<operation>_<YYYY-MM-DD_HH-MM-SS>] and the two files in it. *)
Definition crash_dir (operation_name : string) (t : DateTime) : string :=
  path_join "crash" (operation_name +:+ "_" +:+ strftime t).

Definition screenshot_file (dir : string) : string :=
  path_join dir "crash_screenshot.png".

Definition html_file (dir : string) : string := path_join dir "crash_page.html".

(** A crash report is on disk in [dir]: the screenshot and the page. *)
Definition crash_report_saved (st : State) (dir png html : string) : Prop :=
  dir ∈ dirs st ∧
  files st !! screenshot_file dir = Some png ∧
  files st !! html_file dir = Some html.

(** [crash] can be made or is there, and nothing is in the way of [dir]. *)
Definition crash_dir_free (st : State) (dir : string) : Prop :=
  ("crash" ∈ dirs st ∨ files st !! "crash" = None) ∧
  (dir ∉ dirs st) ∧ (files st !! dir = None).

(** What a pass of the polling loop writes to the log about the text it
    read: the percentage if [re.search] finds one, else the text. *)
Definition progress_note (txt : string) : string :=
  match re_search txt with
  | Some progress_value => "Upload progress: " +:+ progress_value +:+ "%"
  | None => "Upload status: " +:+ txt
  end.

(** What became of the crash report that was begun at interaction [t]:
    both files are in [dir] and the log says so, or the driver raised and
    the log says that. *)
Definition report_outcome (env : Env) (t : nat) (st : State) (dir last : string)
    : Prop :=
  (∃ png html,
     get_screenshot_as_png env t = Return png ∧
     page_source env (S t) = Return html ∧
     crash_report_saved st dir png html ∧
     last = "Crash report saved to: " +:+ dir) ∨
  (∃ e,
     (get_screenshot_as_png env t = Raise e ∨
      (∃ png, get_screenshot_as_png env t = Return png ∧
              page_source env (S t) = Raise e)) ∧
     last = "Failed to save crash report: " +:+ exn_str e).

(** [continues body k st st']: from [st], [k] passes through [body] all
    asked for another pass and left the state [st']. *)
Inductive continues (body : M Ctl) : nat → State → State → Prop :=
  | continues_0 st : continues body 0 st st
  | continues_S k st st1 st2 :
      body st = (Return Continue, st1) →
      continues body k st1 st2 →
      continues body (S k) st st2.

(** ** A text field to replay the keys on

    The test double of the specification: a field holds a text, all of it
    selected or not.  A click drops the selection; the select-all
    combination of the platform selects the text; backspace deletes the
    selection, or else the last character; a character replaces the
    selection, or else goes to the end. *)
Record TextField := { content : string; all_selected : bool }.

Definition select_all_modifier (system : string) : Key :=
  if String.eqb system "Darwin" then COMMAND else CONTROL.

Definition key_eqb (a b : Key) : bool :=
  match a, b with
  | KChar x, KChar y => Ascii.eqb x y
  | CONTROL, CONTROL | COMMAND, COMMAND
  | BACKSPACE, BACKSPACE | ENTER, ENTER => true
  | _, _ => false
  end.

Definition insert_char (c : ascii) (f : TextField) : TextField :=
  if all_selected f
  then {| content := String c EmptyString; all_selected := false |}
  else {| content := content f +:+ String c EmptyString; all_selected := false |}.

Fixpoint drop_last (s : string) : string :=
  match s with
  | EmptyString => EmptyString
  | String c EmptyString => EmptyString
  | String c r => String c (drop_last r)
  end.

Definition backspace (f : TextField) : TextField :=
  if all_selected f
  then {| content := EmptyString; all_selected := false |}
  else {| content := drop_last (content f); all_selected := false |}.

(** The keys of one [send_keys]; a modifier stays [held] to its end. *)
Fixpoint type_keys (system : string) (held : option Key) (keys : list Key)
    (f : TextField) : TextField :=
  match keys with
  | [] => f
  | CONTROL :: rest => type_keys system (Some CONTROL) rest f
  | COMMAND :: rest => type_keys system (Some COMMAND) rest f
  | BACKSPACE :: rest => type_keys system held rest (backspace f)
  | ENTER :: rest => type_keys system held rest (insert_char (ascii_of_nat 10) f)
  | KChar c :: rest =>
      match held with
      | None => type_keys system held rest (insert_char c f)
      | Some m =>
          if key_eqb m (select_all_modifier system) && Ascii.eqb c "a"
          then type_keys system held rest
                 {| content := content f; all_selected := true |}
          else type_keys system held rest f
      end
  end.

Definition element_eqb (a b : WebElement) : bool :=
  match a, b with Element x, Element y => Nat.eqb x y end.

Definition field_event (system : string) (field : WebElement) (f : TextField)
    (ev : Event) : TextField :=
  match ev with
  | Click el =>
      if element_eqb el field
      then {| content := content f; all_selected := false |} else f
  | SendKeys el keys =>
      if element_eqb el field then type_keys system None keys f else f
  | _ => f
  end.

Definition replay (system : string) (field : WebElement) (evs : list Event)
    (f : TextField) : TextField :=
  fold_left (field_event system field) evs f.

(** * Pages to run the code on

    Values in the manner of the upstream [Constant] module. *)
Definition sample_constants : Constant := {|
  UPLOADING_STATUS_CONTAINER :=
    "/html/body/ytcp-uploads-dialog//ytcp-video-upload-progress/span";
  USER_WAITING_TIME := 1;
  ACTION_WAIT_TIME := (1 # 10);
  TEXTBOX_ID := "textbox";
  VIDEO_TITLE := "title";
  VIDEO_DESCRIPTION := "description";
  VIDEO_ALTERED_CONTENT := "altered_content";
  ALTERED_CONTENT_YES_RADIO :=
    "//tp-yt-paper-radio-button[@name='VIDEO_HAS_ALTERED_CONTENT_YES']";
  ALTERED_CONTENT_NO_RADIO :=
    "//tp-yt-paper-radio-button[@name='VIDEO_HAS_ALTERED_CONTENT_NO']";
  VIDEO_URL_ELEMENT := "//a[@class='style-scope ytcp-video-info']";
  DONE_BUTTON := "done-button";
  ERROR_CONTAINER := "//*[@id='error-message']"
|}.

Definition start : State :=
  {| tick := 0; trace := []; dirs := ∅; files := ∅ |}.

Definition noon : DateTime :=
  {| year := 2025; month := 3; day := 9; hour := 12; minute := 0; second := 5 |}.

(** A page on which every lookup finds the element [Element 1], whose only
    text is [shown], whose attributes are given by [attribute], and which
    is displayed. *)
Definition page_showing (shown : string) (attribute : string → option string)
    : Env := {|
  until := λ _ _ _ _ _, Some (Element 1);
  until_all := λ _ _ _ _, [Element 1; Element 2];
  find_element := λ _ _ _, Some (Element 1);
  get_attribute := λ _ _ name, attribute name;
  text := λ _ _, shown;
  is_displayed := λ _ _, true;
  get_screenshot_as_png := λ _, Return "PNG";
  page_source := λ _, Return "<html></html>";
  now := λ _, noon;
  platform_system := "Linux"
|}.

(** A page on which no lookup finds anything; [shot] is what asking for a
    screenshot gives, [boxes] the text boxes there are. *)
Definition page_without (shot : Outcome string) (boxes : list WebElement)
    : Env := {|
  until := λ _ _ _ _ _, None;
  until_all := λ _ _ _ _, boxes;
  find_element := λ _ _ _, None;
  get_attribute := λ _ _ _, None;
  text := λ _ _, EmptyString;
  is_displayed := λ _ _, false;
  get_screenshot_as_png := λ _, shot;
  page_source := λ _, Return "<html></html>";
  now := λ _, noon;
  platform_system := "Linux"
|}.

(** A page that changes: the progress element is there while [present]
    says so, and reads [shown]. *)
Definition page_over_time (present : nat → bool) (shown : nat → string) : Env := {|
  until := λ t _ _ _ _, if present t then Some (Element 1) else None;
  until_all := λ _ _ _ _, [];
  find_element := λ _ _ _, None;
  get_attribute := λ _ _ _, None;
  text := λ t _, shown t;
  is_displayed := λ _ _, false;
  get_screenshot_as_png := λ _, Return "PNG";
  page_source := λ _, Return "<html></html>";
  now := λ _, noon;
  platform_system := "Linux"
|}.

(** * The rest of the class

    The methods below use more constants of [Constant.py], and a few things
    of Python and of the machine that [Env] does not have. *)
Class PageConstant := {
  INPUT_FILE_VIDEO : string;
  THUMBNAIL_PLACEHOLDER_ID : string;
  INPUT_FILE_THUMBNAIL_ID : string;
  NOT_MADE_FOR_KIDS_LABEL : string;
  ADVANCED_BUTTON_ID : string;
  VIDEO_PAID_PROMOTION : string;
  PAID_PROMOTION_CHECKBOX : string;
  VIDEO_TAGS : string;
  TAGS_CONTAINER_ID : string;
  TAGS_INPUT : string;
  NEXT_BUTTON : string;
  VIDEO_VISIBILITY : string;
  PRIVATE_BUTTON : string
}.

(** - [cwd_path p]: [str(Path.cwd() / p)], which depends on the working
      directory of the process;
    - [child_element t el by v]: [el.find_element(by, v)], [None] when
      there is no such element;
    - [str_upper]: [str.upper], which leaves the code points below U+0100
      for some of them and so is not a function on [string] we can write;
    - [format_value v]: what an f-string prints for [v], that is [str(v)]. *)
Record Host := {
  cwd_path : string → string;
  child_element : nat → WebElement → By → string → option WebElement;
  str_upper : string → string;
  format_value : PyVal → string
}.

(** The characters of a string, as iterating over it gives them. *)
Definition chars (s : string) : list string :=
  map (λ c, String c EmptyString) (list_ascii_of_string s).

(** [for i in range(n): body(i)], from [i] on. *)
Fixpoint for_range (i n : nat) (body : nat → M unit) : M unit :=
  match n with
  | O => mret tt
  | S n' => body i;; for_range (S i) n' body
  end.

Section MorePage.

Context `{K : Constant} `{P : PageConstant}.

Variable env : Env.
Variable host : Host.
Variable metadata : gmap string PyVal.

(** [element.find_element(by, value)]; no crash report here. *)
Definition element_find_element (element : WebElement) (by_ : By)
    (value : string) : M WebElement :=
  r ← ask (λ t, child_element host t element by_ value);
  match r with
  | Some el => mret el
  | None => raise (NoSuchElementException EmptyString)
  end.

Definition attach_video (video_path : string) : M unit :=
  file_input ←
    _find_element env XPATH INPUT_FILE_VIDEO presence_of_element_located None;
  let absolute_video_path := cwd_path host video_path in
  act (SendKeys file_input (keys_of absolute_video_path));;
  log Debug ("Attached video: " +:+ video_path).

Definition show_input_script (input_id : string) : string :=
  "document.getElementById('" +:+ input_id +:+ "').style.display = 'block';".

Definition set_thumbnail (thumbnail_path : string) : M unit :=
  log Debug "Setting thumbnail...";;
  _find_element env ID THUMBNAIL_PLACEHOLDER_ID presence_of_element_located None;;
  let thumbnail_input_id := INPUT_FILE_THUMBNAIL_ID in
  act (ExecuteScript (show_input_script thumbnail_input_id) []);;
  thumbnail_input ←
    _find_element env ID thumbnail_input_id presence_of_element_located None;
  let absolute_thumbnail_path := cwd_path host thumbnail_path in
  act (SendKeys thumbnail_input (keys_of absolute_thumbnail_path));;
  log Debug ("Attached thumbnail: " +:+ thumbnail_path).

Definition set_audience : M unit :=
  let locator := (NAME, NOT_MADE_FOR_KIDS_LABEL) in
  _click_if_not_selected env locator "Not made for kids".

Definition scroll_script : string := "arguments[0].scrollIntoView();".

Definition disclose_advanced_options : M unit :=
  show_more_button ←
    _find_element env ID ADVANCED_BUTTON_ID element_to_be_clickable None;
  act (ExecuteScript scroll_script [show_more_button]);;
  act (Click show_more_button);;
  log Debug ("Clicked " +:+ dquote +:+ "Show More" +:+ dquote).

Definition set_paid_promotion : M unit :=
  if truthy (metadata_get metadata VIDEO_PAID_PROMOTION) then
    let locator := (ID, PAID_PROMOTION_CHECKBOX) in
    _click_if_not_selected env locator "Paid promotion"
  else mret tt.

(** [",".join(tags)]: a list is joined, a string is taken character by
    character, what cannot be iterated is a type error. *)
Definition join_tags (tags : PyVal) : M string :=
  match tags with
  | PList l => mret (str_join "," l)
  | PStr s => mret (str_join "," (chars s))
  | _ => raise (TypeError "can only join an iterable")
  end.

Definition set_tags : M unit :=
  let tags := metadata_get metadata VIDEO_TAGS in
  if truthy tags then
    tags_container ←
      _find_element env ID TAGS_CONTAINER_ID presence_of_element_located None;
    tags_input ← element_find_element tags_container ID TAGS_INPUT;
    joined ← join_tags tags;
    _write_in_field env tags_input (keys_of joined) false;;
    log Debug ("Set tags to: " +:+ format_value host tags)
  else mret tt.

(** One turn of the loop of [navigate_to_visibility_page]. *)
Definition click_next (i : nat) : M unit :=
  next_button ← _find_element env ID NEXT_BUTTON element_to_be_clickable None;
  act (Click next_button);;
  log Debug ("Clicked " +:+ dquote +:+ "Next" +:+ dquote +:+ " button "
             +:+ pretty (i + 1));;
  sleep (1 # 2).

Definition navigate_to_visibility_page : M unit := for_range 0 3 click_next.

(** [self.metadata.get(key, default)] *)
Definition metadata_get_default (key : string) (default_value : PyVal) : PyVal :=
  default default_value (metadata !! key).

(** [value.upper()] *)
Definition upper_of_value (v : PyVal) : M string :=
  match v with
  | PStr s => mret (str_upper host s)
  | _ =>
      raise (AttributeError
               ("'" +:+ type_name v +:+ "' object has no attribute 'upper'"))
  end.

Definition visibility_xpath (visibility_name : string) : string :=
  "//tp-yt-paper-radio-button[@name='" +:+ visibility_name +:+ "']".

Definition set_visibility : M unit :=
  let visibility_name :=
    metadata_get_default VIDEO_VISIBILITY (PStr PRIVATE_BUTTON) in
  visibility_name ← upper_of_value visibility_name;
  let xpath := visibility_xpath visibility_name in
  _click_if_not_selected env (XPATH, xpath) ("Visibility: " +:+ visibility_name).

End MorePage.

(** ** More to observe *)

(** Events that leave the page alone: lines of the log and sleeps. *)
Definition is_quiet (ev : Event) : bool :=
  match ev with Log _ _ | Sleep _ => true | _ => false end.

(** Events on the element [el]. *)
Definition on_element (el : WebElement) (ev : Event) : bool :=
  match ev with
  | Click e | SendKeys e _ => element_eqb e el
  | ExecuteScript _ args => existsb (λ e, element_eqb e el) args
  | _ => false
  end.

(** ** More pages *)

Definition sample_page_constants : PageConstant := {|
  INPUT_FILE_VIDEO := "//input[@type='file']";
  THUMBNAIL_PLACEHOLDER_ID := "select-button";
  INPUT_FILE_THUMBNAIL_ID := "file-loader";
  NOT_MADE_FOR_KIDS_LABEL := "VIDEO_MADE_FOR_KIDS_NOT_MFK";
  ADVANCED_BUTTON_ID := "toggle-button";
  VIDEO_PAID_PROMOTION := "paid_promotion";
  PAID_PROMOTION_CHECKBOX := "has-ppp";
  VIDEO_TAGS := "tags";
  TAGS_CONTAINER_ID := "tags-container";
  TAGS_INPUT := "text-input";
  NEXT_BUTTON := "next-button";
  VIDEO_VISIBILITY := "visibility";
  PRIVATE_BUTTON := "PRIVATE"
|}.

(** [str.upper] on ASCII text. *)
Fixpoint ascii_upper (s : string) : string :=
  match s with
  | EmptyString => EmptyString
  | String c r => String (upper_of c) (ascii_upper r)
  end.

(** [str(v)] for strings and lists of strings that need no escape. *)
Definition simple_format (v : PyVal) : string :=
  match v with
  | PNone => "None"
  | PBool b => if b then "True" else "False"
  | PStr s => s
  | PList l => "[" +:+ str_join ", " (map (λ x, "'" +:+ x +:+ "'") l) +:+ "]"
  end.

(** A host whose working directory is [/home/toob], on which elements
    have the child [Element 7] or none. *)
Definition sample_host (with_child : bool) : Host := {|
  cwd_path := λ p, "/home/toob/" +:+ p;
  child_element := λ _ _ _ _, if with_child then Some (Element 7) else None;
  str_upper := ascii_upper;
  format_value := simple_format
|}.

(** A page on which no lookup finds anything and the page source cannot
    be read. *)
Definition page_closing : Env := {|
  until := λ _ _ _ _ _, None;
  until_all := λ _ _ _ _, [];
  find_element := λ _ _ _, None;
  get_attribute := λ _ _ _, None;
  text := λ _ _, EmptyString;
  is_displayed := λ _ _, false;
  get_screenshot_as_png := λ _, Return "PNG";
  page_source := λ _, Raise (WebDriverException "no such window");
  now := λ _, noon;
  platform_system := "Linux"
|}.

(** A state in which the crash directory of a lookup of ["//a/b"] at
    [noon] is there already. *)
Definition crashed_before : State :=
  {| tick := 0; trace := [];
     dirs := {["crash"; "crash/find_element_timeout_a_b_2025-03-09_12-00-05"]};
     files := ∅ |}.

(** The events by which [_clear_field] empties [field]. *)
Definition clear_events `{K : Constant} (system : string) (field : WebElement)
    : list Event :=
  [Click field; Sleep ACTION_WAIT_TIME;
   SendKeys field [select_all_modifier system; KChar "a"];
   Sleep ACTION_WAIT_TIME;
   SendKeys field [BACKSPACE]].

(** Metadata with a title and a description, and with tags. *)
Definition sample_metadata (description : string) : gmap string PyVal :=
  {[ "title" := PStr "My video"; "description" := PStr description;
     "tags" := PList ["cats"; "dogs"] ]}.

(** The line [click_next] logs for the turn numbered [n]. *)
Definition next_log (n : string) : Event :=
  Log Debug ("Clicked " +:+ dquote +:+ "Next" +:+ dquote +:+ " button " +:+ n).

(** A computation that never clicks, whatever state it starts in. *)
Definition click_free {A} (m : M A) : Prop :=
  ∀ st, ∃ evs, trace (m st).2 = trace st ++ evs ∧ clicks evs = 0.

(** A state in which [crash] is a file. *)
Definition crash_is_a_file : State :=
  {| tick := 0; trace := []; dirs := ∅; files := {["crash" := "notes"]} |}.

(** A state with a file of the user. *)
Definition with_notes : State :=
  {| tick := 0; trace := []; dirs := {["videos"]};
     files := {["videos/notes.txt" := "notes"]} |}.

(** Lines of the log at level [Error]. *)
Definition is_error_log (ev : Event) : bool :=
  match ev with Log Error _ => true | _ => false end.

(** Sleeps. *)
Definition is_sleep (ev : Event) : bool :=
  match ev with Sleep _ => true | _ => false end.

(** A page whose lookups succeed before interaction [limit] and time out
    from then on. *)
Definition page_until (limit : nat) : Env := {|
  until := λ t _ _ _ _, if (t <? limit)%nat then Some (Element 1) else None;
  until_all := λ _ _ _ _, [Element 1; Element 2];
  find_element := λ _ _ _, None;
  get_attribute := λ _ _ _, None;
  text := λ _ _, EmptyString;
  is_displayed := λ _ _, false;
  get_screenshot_as_png := λ _, Return "PNG";
  page_source := λ _, Return "<html></html>";
  now := λ _, noon;
  platform_system := "Linux"
|}.

(** * Facts about strings *)
Module PyStrFacts.

#[local] Arguments String.append : simpl nomatch.

Lemma append_empty_r (s : string) : s +:+ EmptyString = s.
Proof. induction s as [|c s IH]; [done | by cbn; f_equal]. Qed.

Lemma append_assoc (a b c : string) : (a +:+ b) +:+ c = a +:+ (b +:+ c).
Proof. induction a as [|x a IH]; [done | by cbn; f_equal]. Qed.

Lemma append_inj_l (p a b : string) : p +:+ a = p +:+ b → a = b.
Proof. induction p as [|c p IH]; cbn; [done | intros [= H]; auto]. Qed.

(** ** The run of digits *)

Lemma span_digits_app (s : string) :
  ∀ d t, span_digits s = (d, t) → s = d +:+ t ∧ all_digits d = true.
Proof.
  induction s as [|c r IH]; simpl; intros d t.
  - intros [= <- <-]. done.
  - destruct (is_digit c) eqn:Hc.
    + destruct (span_digits r) as [d' t'] eqn:Hr. intros [= <- <-].
      destruct (IH d' t' eq_refl) as [-> Hd]. simpl. by rewrite Hc, Hd.
    + intros [= <- <-]. done.
Qed.

Lemma span_digits_run (d rest : string) :
  all_digits d = true →
  span_digits (d +:+ String "%" rest) = (d, String "%" rest).
Proof.
  induction d as [|c d IH]; simpl; [done |].
  intros [Hc Hd]%andb_true_iff. by rewrite Hc, (IH Hd).
Qed.

Lemma re_match_Some (s g : string) :
  re_match s = Some g ↔
  ∃ post, s = g +:+ "%" +:+ post ∧ g ≠ EmptyString ∧ all_digits g = true.
Proof.
  unfold re_match. split.
  - destruct (span_digits s) as [d t] eqn:Hs.
    destruct (span_digits_app _ _ _ Hs) as [-> Hd].
    destruct d as [|c d]; [done |].
    destruct t as [|x t]; [done |].
    destruct (Ascii.eqb_spec x "%") as [-> | Hx].
    + intros [= <-]. by exists t.
    + intros H. exfalso. revert H.
      destruct x as [[] [] [] [] [] [] [] []]; try done.
  - intros (post & -> & Hg & Hd). simpl. rewrite (span_digits_run g post Hd).
    destruct g; done.
Qed.

Lemma re_match_None (s : string) :
  re_match s = None ↔
  ¬ ∃ g post, s = g +:+ "%" +:+ post ∧ g ≠ EmptyString ∧ all_digits g = true.
Proof.
  split.
  - intros H (g & post & Hs).
    assert (re_match s = Some g) by (apply re_match_Some; eauto). congruence.
  - intros H. destruct (re_match s) as [g|] eqn:Hg; [| done].
    exfalso. apply H. exists g. by apply re_match_Some.
Qed.

(** ** [re_search] finds the first percentage, if there is one *)


Lemma has_percentage_inv (c : ascii) (r : string) :
  has_percentage (String c r) →
  (∃ g, re_match (String c r) = Some g) ∨ has_percentage r.
Proof.
  intros (pre & nn & post & Hs & Hn & Hd). destruct pre as [|x pre].
  - left. exists nn. apply re_match_Some. by exists post.
  - right. simpl in Hs. injection Hs as _ ->. by exists pre, nn, post.
Qed.

Lemma no_percentage_empty : ¬ has_percentage EmptyString.
Proof.
  intros (pre & nn & post & Hs & Hn & _).
  destruct pre; [destruct nn |]; done.
Qed.

Lemma ends_with_digit_cons (c : ascii) (s : string) :
  s ≠ EmptyString → ends_with_digit (String c s) = ends_with_digit s.
Proof. by destruct s. Qed.



Lemma re_search_sound (s g : string) :
  re_search s = Some g → first_percentage s g.
Proof.
  revert g. induction s as [|c r IH]; intros g; simpl; [done |].
  destruct (re_match (String c r)) as [g'|] eqn:Hm.
  - intros [= ->]. apply re_match_Some in Hm as (post & Hs & Hn & Hd).
    exists EmptyString, post. repeat split; auto using no_percentage_empty.
  - intros Hr. destruct (IH g Hr) as (pre & post & -> & Hn & Hd & Hend & Hno).
    exists (String c pre), post. repeat split; auto.
    + destruct pre as [|x pre]; [| by rewrite ends_with_digit_cons].
      simpl. destruct (is_digit c) eqn:Hc; [| done].
      assert (re_match (String c (g +:+ "%" +:+ post)) = Some (String c g)) as Hm'.
      { apply re_match_Some. exists post. simpl. by rewrite Hc, Hd. }
      change (re_match (String c (g +:+ "%" +:+ post)) = None) in Hm. congruence.
    + intros (a & d & b & Hs & Hdn & Hdd). destruct a as [|x a].
      * assert (re_match (String c (pre +:+ g +:+ "%" +:+ post)) = Some d) as Hm'.
        { apply re_match_Some. exists (b +:+ g +:+ "%" +:+ post).
          change (String c (pre +:+ g +:+ "%" +:+ post))
            with (String c pre +:+ g +:+ "%" +:+ post).
          rewrite Hs. simpl. by rewrite !append_assoc. }
        congruence.
      * simpl in Hs. injection Hs as _ ->. apply Hno. by exists a, d, b.
Qed.

Lemma re_search_None (s : string) : re_search s = None ↔ ¬ has_percentage s.
Proof.
  split.
  - induction s as [|c r IH]; simpl; [auto using no_percentage_empty |].
    destruct (re_match (String c r)) as [g|] eqn:Hm; [done |].
    intros Hr [[g Hg] | H]%has_percentage_inv; [congruence | by apply IH].
  - intros Hno. destruct (re_search s) as [g|] eqn:Hs; [| done].
    exfalso. apply Hno.
    destruct (re_search_sound _ _ Hs) as (pre & post & -> & Hn & Hd & _).
    by exists pre, g, post.
Qed.


Lemma has_percentage_first (s : string) :
  has_percentage s ↔ ∃ nn, first_percentage s nn.
Proof.
  split.
  - intros H. destruct (re_search s) as [g|] eqn:Hs.
    + exists g. by apply re_search_sound.
    + by apply re_search_None in Hs.
  - intros (nn & pre & post & -> & Hn & Hd & _). by exists pre, nn, post.
Qed.

(** ** Lower case and the completion phrases *)

Lemma startswith_iff (p s : string) :
  startswith p s = true ↔ ∃ r, s = p +:+ r.
Proof.
  revert s. induction p as [|a p IH]; intros s; simpl.
  - split; [by exists s | done].
  - destruct s as [|b s]; [split; [done | by intros [? ?]] |].
    destruct (Ascii.eqb_spec a b) as [-> | Hab].
    + rewrite IH. split; intros [r Hr]; exists r; [by rewrite Hr | by injection Hr].
    + split; [done | intros [r [= ? _]]; done].
Qed.

Lemma str_in_iff (n h : string) :
  str_in n h = true ↔ ∃ pre post, h = pre +:+ n +:+ post.
Proof.
  induction h as [|c h IH]; simpl; rewrite orb_true_iff, startswith_iff.
  - split.
    + intros [[r Hr] | ?]; [| done]. by exists EmptyString, r.
    + intros (pre & post & H). left. destruct pre; [by exists post | done].
  - rewrite IH. split.
    + intros [[r Hr] | (pre & post & ->)].
      * by exists EmptyString, r.
      * by exists (String c pre), post.
    + intros (pre & post & H). destruct pre as [|x pre].
      * left. by exists post.
      * right. simpl in H. injection H as _ ->. by exists pre, post.
Qed.

Lemma lower_app (a b : string) : lower (a +:+ b) = lower a +:+ lower b.
Proof. induction a as [|c a IH]; simpl; [done | by rewrite IH]. Qed.

Lemma lower_split (a b : string) :
  ∀ s, lower s = a +:+ b → ∃ a' b', s = a' +:+ b' ∧ lower a' = a ∧ lower b' = b.
Proof.
  induction a as [|c a IH]; intros s Hs.
  - by exists EmptyString, s.
  - destruct s as [|x s]; [done |]. simpl in Hs. injection Hs as Hx Hs.
    destruct (IH s Hs) as (a' & b' & -> & Ha & Hb).
    exists (String x a'), b'. simpl. by rewrite Hx, Ha.
Qed.

Lemma lower_char_upper_of (c : ascii) : lower_char (upper_of c) = lower_char c.
Proof. by destruct c as [[] [] [] [] [] [] [] []]. Qed.

Lemma lower_char_ascii (c : ascii) :
  is_ascii (lower_char c) = true →
  c = lower_char c ∨ c = upper_of (lower_char c).
Proof.
  destruct c as [[] [] [] [] [] [] [] []]; intros H; vm_compute in H;
    try discriminate H; (by left) || (by right).
Qed.

Lemma plain_lower (p : string) : plain p = true → lower p = p.
Proof.
  induction p as [|c p IH]; simpl; [done |].
  intros [[_ Hc%Ascii.eqb_eq]%andb_true_iff Hp]%andb_true_iff.
  by rewrite Hc, IH.
Qed.

Lemma case_variant_lower (v p : string) :
  case_variant v p → lower v = lower p.
Proof.
  induction 1 as [| c v p _ IH | c v p _ IH]; simpl;
    [done | by rewrite IH | by rewrite lower_char_upper_of, IH].
Qed.

Lemma lower_case_variant (v : string) :
  ∀ p, plain p = true → lower v = p → case_variant v p.
Proof.
  induction v as [|c v IH]; intros p Hp <-; simpl in *; [constructor |].
  apply andb_true_iff in Hp as [[Ha _]%andb_true_iff Hp].
  destruct (lower_char_ascii c Ha) as [Hc | Hc].
  - rewrite <- Hc. constructor. by apply IH.
  - remember (lower_char c) as l. rewrite Hc. constructor. by apply IH.
Qed.

(** The test the code makes is the one the specification words. *)
Lemma contains_any_case_iff (p t : string) :
  plain p = true → str_in p (lower t) = true ↔ contains_any_case p t.
Proof.
  intros Hp. rewrite str_in_iff. split.
  - intros (pre & post & H).
    destruct (lower_split _ _ _ H) as (a & r & -> & _ & Hr).
    destruct (lower_split _ _ _ Hr) as (m & b & -> & Hm & _).
    exists a, m, b. split; [done |]. by apply lower_case_variant.
  - intros (pre & mid & post & -> & Hv).
    exists (lower pre), (lower post).
    by rewrite !lower_app, (case_variant_lower _ _ Hv), (plain_lower _ Hp).
Qed.

(** ** Names without a slash *)

Lemma no_slash_app (a b : string) :
  no_slash (a +:+ b) = no_slash a && no_slash b.
Proof.
  induction a as [|c a IH]; simpl; [done |]. by rewrite IH, andb_assoc.
Qed.

Lemma no_slash_take (n : nat) (s : string) :
  no_slash s = true → no_slash (take n s) = true.
Proof.
  revert s. induction n as [|n IH]; intros [|c s]; simpl; try done.
  intros [Hc Hs]%andb_true_iff. rewrite Hc. by apply IH.
Qed.

Lemma no_slash_replace (s : string) : no_slash (replace "/" "_" s) = true.
Proof.
  unfold replace. induction s as [|c s IH]; [done |].
  cbn -[Ascii.eqb]. destruct (Ascii.eqb_spec "/" c) as [<- | Hc]; [done |].
  cbn -[Ascii.eqb]. rewrite IH, andb_true_r.
  apply negb_true_iff, Ascii.eqb_neq. congruence.
Qed.

End PyStrFacts.
(** * Computations, step by step *)

Lemma bind_return {A B} (m : M A) (f : A → M B) (st st' : State) (a : A) :
  m st = (Return a, st') → (m ≫= f) st = f a st'.
Proof. intros H. unfold mbind, M_bind. by rewrite H. Qed.

Lemma bind_raise {A B} (m : M A) (f : A → M B) (st st' : State) (e : Exn) :
  m st = (Raise e, st') → (m ≫= f) st = (Raise e, st').
Proof. intros H. unfold mbind, M_bind. by rewrite H. Qed.

Lemma after_0 (st : State) : after 0 [] st = st.
Proof. destruct st. unfold after. simpl. by rewrite app_nil_r. Qed.

Lemma record_after (ev : Event) (n : nat) (evs : list Event) (st : State) :
  record ev (after n evs st) = after n (evs ++ [ev]) st.
Proof. unfold record, after. simpl. by rewrite app_assoc. Qed.

Lemma bump_is_after (st : State) : bump st = after 1 [] st.
Proof. by rewrite <- (after_0 st) at 1. Qed.

Lemma record_is_after (ev : Event) (st : State) : record ev st = after 0 [ev] st.
Proof. rewrite <- (after_0 st) at 1. by rewrite record_after. Qed.

Lemma after_after (n m : nat) (e1 e2 : list Event) (st : State) :
  after n e1 (after m e2 st) = after (n + m) (e2 ++ e1) st.
Proof.
  unfold after. simpl. f_equal; [lia | by rewrite app_assoc].
Qed.

Lemma clicks_app (a b : list Event) : clicks (a ++ b) = clicks a + clicks b.
Proof. unfold clicks. by rewrite List.filter_app, length_app. Qed.

(** ** The loop *)

Lemma while_true_break (body : M Ctl) (n : nat) (st st' : State) :
  body st = (Return Break, st') →
  while_true (S n) body st = (Return (Some tt), st').
Proof. intros H. simpl. by rewrite (bind_return _ _ _ _ _ H). Qed.

Lemma while_true_continue (body : M Ctl) (n : nat) (st st' : State) :
  body st = (Return Continue, st') →
  while_true (S n) body st = while_true n body st'.
Proof. intros H. simpl. by rewrite (bind_return _ _ _ _ _ H). Qed.

Lemma while_true_raise (body : M Ctl) (n : nat) (st st' : State) (e : Exn) :
  body st = (Raise e, st') →
  while_true (S n) body st = (Raise e, st').
Proof. intros H. simpl. by rewrite (bind_raise _ _ _ _ _ H). Qed.

Lemma while_true_continues (body : M Ctl) (k n : nat) (st st' : State) :
  continues body k st st' →
  while_true (k + n) body st = while_true n body st'.
Proof.
  induction 1 as [| k st st1 st2 Hb _ IH]; [done |].
  change (S k + n) with (S (k + n)). by rewrite (while_true_continue _ _ _ _ Hb).
Qed.

(** ** The crash report *)
Section CrashReport.

Variable env : Env.

Lemma path_join_inj (p a b : string) : path_join p a = path_join p b → a = b.
Proof.
  unfold path_join. intros H. apply PyStrFacts.append_inj_l in H.
  by apply PyStrFacts.append_inj_l in H.
Qed.

Lemma crash_dir_not_crash (op : string) (t : DateTime) : crash_dir op t ≠ "crash".
Proof. done. Qed.

Lemma mkdir_there (p : string) (st : State) :
  p ∈ dirs st → mkdir true p st = (Return tt, st).
Proof. intros H. unfold mkdir. by rewrite decide_True. Qed.

Lemma mkdir_new (exist_ok : bool) (p : string) (st : State) :
  p ∉ dirs st → files st !! p = None →
  mkdir exist_ok p st = (Return tt, add_dir p st).
Proof.
  intros Hd Hf. unfold mkdir. rewrite decide_False by done.
  rewrite decide_False; [done |]. rewrite Hf. by intros [? ?].
Qed.

Lemma mkdir_taken (p : string) (st : State) :
  p ∈ dirs st → mkdir false p st = (Raise (FileExistsError p), st).
Proof. intros H. unfold mkdir. by rewrite decide_True. Qed.

(** Making [crash]: the directory is there afterwards, the rest of the
    state is as before. *)
Lemma mkdir_crash (st : State) :
  "crash" ∈ dirs st ∨ files st !! "crash" = None →
  ∃ st1, mkdir true "crash" st = (Return tt, st1) ∧
         tick st1 = tick st ∧ trace st1 = trace st ∧ files st1 = files st ∧
         dirs st1 = {["crash"]} ∪ dirs st.
Proof.
  intros H. destruct (decide ("crash" ∈ dirs st)) as [Hin | Hout].
  - exists st. rewrite mkdir_there by done. split_and!; [done.. |].
    symmetry. apply subseteq_union_1_L. by apply singleton_subseteq_l.
  - destruct H as [? | Hf]; [done |]. exists (add_dir "crash" st).
    by rewrite mkdir_new.
Qed.

Lemma save_crash_report_run (op : string) (st : State) :
  let dir := crash_dir op (now env (tick st)) in
  crash_dir_free st dir →
  ∃ st' note,
    _save_crash_report env op st = (Return tt, st') ∧
    trace st' = trace st ++ [Log Error note] ∧
    dirs st' = {[dir]} ∪ ({["crash"]} ∪ dirs st) ∧
    report_outcome env (S (tick st)) st' dir note ∧
    (∀ e, get_screenshot_as_png env (S (tick st)) = Raise e →
          files st' = files st).
Proof.
  intros dir (Hcrash & Hdir & Hfile).
  destruct (mkdir_crash st Hcrash) as (st1 & Hmk & Ht1 & Htr1 & Hf1 & Hd1).
  unfold _save_crash_report.
  rewrite (bind_return _ _ _ _ _ Hmk).
  unfold ask at 1. unfold mbind at 1, M_bind at 1. rewrite Ht1.
  fold (crash_dir op (now env (tick st))). fold dir.
  assert (dir ∉ dirs (bump st1)) as Hd.
  { simpl. rewrite Hd1, not_elem_of_union, not_elem_of_singleton.
    split; [apply crash_dir_not_crash | done]. }
  assert (files (bump st1) !! dir = None) as Hf by (simpl; by rewrite Hf1).
  rewrite (bind_return _ _ _ _ _ (mkdir_new false dir (bump st1) Hd Hf)).
  unfold try_except, save_screenshot, driver_page_source, write_file, log, ask.
  unfold mbind, M_bind, mret, M_ret, raise. simpl. rewrite Ht1.
  unfold report_outcome, crash_report_saved.
  destruct (get_screenshot_as_png env (S (tick st))) as [png | e] eqn:Hshot; simpl;
    rewrite ?Ht1.
  - destruct (page_source env (S (S (tick st)))) as [html | e] eqn:Hpage; simpl.
    + eexists _, _. split; [done |]. simpl. rewrite Htr1, Hd1.
      split_and!; [done | done | | done]. left.
      exists png, html. split_and!; try done.
      * apply elem_of_union_l. by apply elem_of_singleton.
      * rewrite lookup_insert_ne, lookup_insert_ne, lookup_insert_eq; [done | |];
          by intros ?%path_join_inj.
      * by rewrite lookup_insert_eq.
    + eexists _, _. split; [done |]. simpl. rewrite Htr1, Hd1.
      split_and!; [done | done | | done]. right. exists e. eauto.
  - eexists _, _. split; [done |]. simpl. rewrite Htr1, Hd1, Hf1.
    split_and!; [done | done | | done]. right. exists e. eauto.
Qed.

(** The name of a crash directory made for a lookup has no ["/"], so the
    directory is a child of [crash], which is made first. *)
Lemma digit_no_slash (n : nat) : Ascii.eqb (digit n) "/" = false.
Proof.
  unfold digit. pose proof (Nat.mod_upper_bound n 10) as H.
  destruct (n mod 10) as [|[|[|[|[|[|[|[|[|[|m]]]]]]]]]]; try reflexivity. lia.
Qed.

Lemma strftime_no_slash (t : DateTime) : no_slash (strftime t) = true.
Proof.
  unfold strftime, pad4, pad2.
  rewrite !PyStrFacts.no_slash_app. cbn -[digit].
  by rewrite !digit_no_slash.
Qed.

Lemma crash_dir_name_no_slash (value : string) (t : DateTime) :
  no_slash (timeout_operation_name value +:+ "_" +:+ strftime t) = true.
Proof.
  unfold timeout_operation_name.
  rewrite !PyStrFacts.no_slash_app, strftime_no_slash.
  by rewrite PyStrFacts.no_slash_take by apply PyStrFacts.no_slash_replace.
Qed.

(** Whatever happens, the crash report only writes to the log. *)
Lemma save_crash_report_trace (op : string) (st : State) :
  ∃ evs, trace (_save_crash_report env op st).2 = trace st ++ evs ∧ clicks evs = 0.
Proof.
  unfold _save_crash_report, try_except, save_screenshot, driver_page_source,
    write_file, log, ask, mkdir, mbind, M_bind, mret, M_ret, raise.
  repeat (case_decide; simpl); try (by exists []; rewrite app_nil_r).
  all: destruct (get_screenshot_as_png env _); simpl;
       [destruct (page_source env _); simpl |]; by eexists [_].
Qed.

(** ** Looking an element up *)

Lemma find_element_found (by_ : By) (value : string) (condition : Condition)
    (timeout : option Z) (st : State) (el : WebElement) :
  until env (tick st) condition by_ value (wait_for timeout) = Some el →
  _find_element env by_ value condition timeout st = (Return el, bump st).
Proof.
  intros H. unfold _find_element, try_except, wait_until, ask, mbind, M_bind.
  by rewrite H.
Qed.

Lemma find_element_timeout_run (by_ : By) (value : string) (condition : Condition)
    (timeout : option Z) (st : State) :
  let dir := crash_dir (timeout_operation_name value) (now env (S (tick st))) in
  until env (tick st) condition by_ value (wait_for timeout) = None →
  crash_dir_free st dir →
  ∃ st' note,
    _find_element env by_ value condition timeout st
      = (Raise (TimeoutException ""), st') ∧
    trace st' =
      trace st ++
        [Log Error ("TimeoutException while trying to find element: " +:+ value);
         Log Error note] ∧
    dirs st' = {[dir]} ∪ ({["crash"]} ∪ dirs st) ∧
    report_outcome env (S (S (tick st))) st' dir note ∧
    (∀ e, get_screenshot_as_png env (S (S (tick st))) = Raise e →
          files st' = files st).
Proof.
  intros dir Hwait Hfree.
  set (st1 := record
    (Log Error ("TimeoutException while trying to find element: " +:+ value))
    (bump st)).
  destruct (save_crash_report_run (timeout_operation_name value) st1)
    as (st' & note & Hrun & Htr & Hd & Hout & Hfiles); [done |].
  exists st', note.
  unfold _find_element, try_except, wait_until, ask, mbind, M_bind.
  rewrite Hwait. unfold raise at 1. unfold log. fold st1. rewrite Hrun.
  split_and!; try done. rewrite Htr. simpl. by rewrite <- app_assoc.
Qed.

Lemma find_element_trace (by_ : By) (value : string) (condition : Condition)
    (timeout : option Z) (st : State) :
  ∃ evs,
    trace (_find_element env by_ value condition timeout st).2 = trace st ++ evs ∧
    clicks evs = 0.
Proof.
  unfold _find_element, try_except, wait_until, ask, mbind, M_bind.
  destruct (until env _ _ _ _ _); simpl; [by exists []; rewrite app_nil_r |].
  unfold log.
  match goal with |- context [_save_crash_report env ?op ?s] =>
    destruct (save_crash_report_trace op s) as (evs & Htr & Hc);
    destruct (_save_crash_report env op s) as [[[] | e] st'] eqn:Hrun
  end; simpl in *; rewrite Htr; simpl; rewrite <- app_assoc;
    eexists; (split; [done |]); by rewrite clicks_app, Hc.
Qed.

(** When the crash directory is already there, [mkdir()] raises and its
    error takes the place of the timeout error. *)
Lemma save_crash_report_directory_exists (op : string) (st : State) :
  let dir := crash_dir op (now env (tick st)) in
  "crash" ∈ dirs st → dir ∈ dirs st →
  _save_crash_report env op st = (Raise (FileExistsError dir), bump st).
Proof.
  intros dir Hcrash Hdir. unfold _save_crash_report.
  rewrite (bind_return _ _ _ _ _ (mkdir_there "crash" _ Hcrash)).
  unfold ask, mbind at 1, M_bind at 1.
  by rewrite (bind_raise _ _ _ _ _ (mkdir_taken dir (bump st) Hdir)).
Qed.

Lemma find_element_timeout_directory_exists (by_ : By) (value : string)
    (condition : Condition) (timeout : option Z) (st : State) :
  let dir := crash_dir (timeout_operation_name value) (now env (S (tick st))) in
  until env (tick st) condition by_ value (wait_for timeout) = None →
  "crash" ∈ dirs st → dir ∈ dirs st →
  (_find_element env by_ value condition timeout st).1
    = Raise (FileExistsError dir).
Proof.
  intros dir Hwait Hcrash Hdir.
  set (st1 := record
    (Log Error ("TimeoutException while trying to find element: " +:+ value))
    (bump st)).
  pose proof (save_crash_report_directory_exists
                (timeout_operation_name value) st1 Hcrash Hdir) as Hrun.
  unfold _find_element, try_except, wait_until, ask, mbind, M_bind.
  rewrite Hwait. unfold raise at 1. unfold log. fold st1. by rewrite Hrun.
Qed.

(** When [crash] is a file, or something is in the place of the crash
    directory, the [mkdir()] that finds it so raises, before anything is
    asked of the driver or logged. *)
Lemma save_crash_report_blocked (op : string) (st : State) :
  let dir := crash_dir op (now env (tick st)) in
  ¬ crash_dir_free st dir →
  ∃ p st',
    (p = "crash" ∨ p = dir) ∧
    _save_crash_report env op st = (Raise (FileExistsError p), st') ∧
    trace st' = trace st ∧ files st' = files st.
Proof.
  intros dir Hnot. unfold _save_crash_report.
  destruct (decide ("crash" ∈ dirs st ∨ files st !! "crash" = None))
    as [Hcrash | Hcrash].
  - destruct (mkdir_crash st Hcrash) as (st1 & Hmk & Ht1 & Htr1 & Hf1 & Hd1).
    rewrite (bind_return _ _ _ _ _ Hmk).
    unfold ask at 1. unfold mbind at 1, M_bind at 1. rewrite Ht1.
    fold (crash_dir op (now env (tick st))). fold dir.
    exists dir, (bump st1). split; [by right |]. split; [| by simpl].
    apply bind_raise. unfold mkdir. simpl. rewrite Hd1, Hf1.
    destruct (decide (dir ∈ {["crash"]} ∪ dirs st)) as [Hin | Hout]; [done |].
    destruct (decide (is_Some (files st !! dir))) as [Hfile | Hnone]; [done |].
    exfalso. apply Hnot.
    split_and!; [done | intros ?; apply Hout; by apply elem_of_union_r |].
    by apply eq_None_not_Some.
  - exists "crash", st. split; [by left |]. split; [| done].
    apply bind_raise. unfold mkdir.
    destruct (decide ("crash" ∈ dirs st)) as [Hin | Hout];
      [exfalso; apply Hcrash; by left |].
    destruct (decide (is_Some (files st !! "crash"))) as [Hfile | Hnone]; [done |].
    exfalso. apply Hcrash. right. by apply eq_None_not_Some.
Qed.

(** Then the error of [mkdir()] takes the place of the timeout error of
    the lookup. *)
Lemma find_element_timeout_blocked (by_ : By) (value : string)
    (condition : Condition) (timeout : option Z) (st : State) :
  let dir := crash_dir (timeout_operation_name value) (now env (S (tick st))) in
  until env (tick st) condition by_ value (wait_for timeout) = None →
  ¬ crash_dir_free st dir →
  ∃ p st',
    (p = "crash" ∨ p = dir) ∧
    _find_element env by_ value condition timeout st
      = (Raise (FileExistsError p), st') ∧
    trace st' =
      trace st ++
        [Log Error ("TimeoutException while trying to find element: " +:+ value)] ∧
    files st' = files st.
Proof.
  intros dir Hwait Hnot.
  set (st1 := record
    (Log Error ("TimeoutException while trying to find element: " +:+ value))
    (bump st)).
  destruct (save_crash_report_blocked (timeout_operation_name value) st1)
    as (p & st' & Hp & Hrun & Htr & Hfiles); [done |].
  exists p, st'. split; [done |].
  unfold _find_element, try_except, wait_until, ask, mbind, M_bind.
  rewrite Hwait. unfold raise at 1. unfold log. fold st1. rewrite Hrun.
  by rewrite Htr, Hfiles.
Qed.

(** The lookup comes back with an element only by finding it. *)
Lemma find_element_Return (by_ : By) (value : string) (condition : Condition)
    (timeout : option Z) (st st' : State) (el : WebElement) :
  _find_element env by_ value condition timeout st = (Return el, st') →
  until env (tick st) condition by_ value (wait_for timeout) = Some el ∧
  st' = bump st.
Proof.
  unfold _find_element, try_except, wait_until, ask, mbind, M_bind.
  destruct (until env _ _ _ _ _); simpl; [by intros [= -> ->] |].
  unfold log.
  match goal with |- context [_save_crash_report env ?op ?s] =>
    by destruct (_save_crash_report env op s) as [[[] | e] s'] end.
Qed.

End CrashReport.

(** ** The conditional toggle and the polling pass *)
Section Steps.

Context `{K : Constant}.
Variable env : Env.

Ltac same_state :=
  rewrite ?bump_is_after, ?record_is_after, ?after_after; reflexivity.

Lemma click_if_not_selected_found (locator : By * string) (msg : string)
    (st : State) (el : WebElement) :
  until env (tick st) presence_of_element_located locator.1 locator.2 self_wait
    = Some el →
  _click_if_not_selected env locator msg st =
    match get_attribute env (S (tick st)) el "checked" with
    | Some _ =>
        (Return tt,
         after 2 [Log Debug ("'" +:+ msg +:+ "' is already selected. No action needed.")]
           st)
    | None =>
        (Return tt,
         after 3 [ExecuteScript click_script [el];
                  Log Debug ("Successfully selected '" +:+ msg +:+ "'")] st)
    end.
Proof.
  intros H. unfold _click_if_not_selected.
  rewrite (bind_return _ _ _ _ _ (find_element_found env _ _ _ None _ _ H)).
  unfold ask, act, log, mbind, M_bind. simpl.
  destruct (get_attribute env (S (tick st)) el "checked"); same_state.
Qed.

Lemma click_if_not_selected_clicks (locator : By * string) (msg : string)
    (st : State) :
  ∃ evs,
    trace (_click_if_not_selected env locator msg st).2 = trace st ++ evs ∧
    clicks evs ≤ 1.
Proof.
  unfold _click_if_not_selected, mbind at 1, M_bind at 1.
  destruct (find_element_trace env locator.1 locator.2
              presence_of_element_located None st) as (evs & Htr & Hc).
  destruct (_find_element env _ _ _ _ st) as [[el | e] st1]; simpl in *.
  - unfold ask, act, log, mbind, M_bind. simpl.
    destruct (get_attribute env (tick st1) el "checked"); simpl; rewrite Htr.
    + eexists. rewrite <- app_assoc. split; [done |].
      rewrite clicks_app, Hc. vm_compute. lia.
    + eexists. rewrite <- !app_assoc. split; [done |].
      rewrite clicks_app, Hc. vm_compute. lia.
  - exists evs. split; [done | lia].
Qed.

Lemma wait_iteration_found (short_timeout : Z) (st : State) (el : WebElement) :
  until env (tick st) presence_of_element_located XPATH UPLOADING_STATUS_CONTAINER
    short_timeout = Some el →
  let txt := text env (S (tick st)) el in
  wait_iteration env short_timeout st =
    if str_in "upload complete" (lower txt) || str_in "checks complete" (lower txt)
    then (Return Break,
          after 2 [Log Debug (progress_note txt);
                   Log Debug "Upload and processing finished."] st)
    else (Return Continue,
          after 3 [Log Debug (progress_note txt); Sleep USER_WAITING_TIME] st).
Proof.
  intros H txt. unfold wait_iteration, try_except.
  rewrite (bind_return _ _ _ _ _ (find_element_found env _ _ _ (Some _) _ _ H)).
  unfold ask, sleep, act, mbind, M_bind. simpl. fold txt. unfold progress_note.
  destruct (re_search txt); unfold log; simpl;
    destruct (str_in "upload complete" (lower txt) || str_in "checks complete" (lower txt));
    simpl; same_state.
Qed.


(** An error of the lookup that is not the timeout error goes through
    the handler of the loop. *)
Lemma wait_iteration_file_exists (short_timeout : Z) (st st1 : State)
    (p : string) :
  _find_element env XPATH UPLOADING_STATUS_CONTAINER presence_of_element_located
    (Some short_timeout) st = (Raise (FileExistsError p), st1) →
  wait_iteration env short_timeout st = (Raise (FileExistsError p), st1).
Proof.
  intros H. unfold wait_iteration, try_except.
  by rewrite (bind_raise _ _ _ _ _ H).
Qed.

End Steps.

(** * The properties of the specification *)
Section Properties.

Context `{K : Constant}.
Variable env : Env.

Ltac same_state :=
  rewrite ?bump_is_after, ?record_is_after, ?after_after; reflexivity.

(** ** Publishing *)

(** When the done button is found and the error dialog is on the page and
    displayed, the [RuntimeError] raised for it is caught by the bare
    [except] around it: [publish_video] clicks the button and returns. *)
Lemma publish_video_with_dialog (st : State) (done_button dialog : WebElement) :
  until env (tick st) element_to_be_clickable ID DONE_BUTTON 7200 = Some done_button →
  find_element env (S (tick st)) XPATH ERROR_CONTAINER = Some dialog →
  is_displayed env (S (S (tick st))) dialog = true →
  publish_video env st =
    (Return tt,
     after 5 [Click done_button; Log Debug "Publish button clicked"] st).
Proof.
  intros Hdone Hdialog Hshown. unfold publish_video.
  rewrite (bind_return _ _ _ _ _ (find_element_found env _ _ _ (Some _) _ _ Hdone)).
  unfold try_except, driver_find_element, ask, act, log, raise, mbind, M_bind,
    mret, M_ret. simpl.
  rewrite Hdialog. simpl. rewrite Hshown. same_state.
Qed.

(** [publish_video] never raises a [RuntimeError]. *)
Lemma publish_video_no_runtime_error (st : State) (msg : string) :
  (publish_video env st).1 ≠ Raise (RuntimeError msg).
Proof.
  unfold publish_video, mbind at 1, M_bind at 1.
  destruct (_find_element env ID DONE_BUTTON element_to_be_clickable (Some 7200%Z) st)
    as [[el | e] st1] eqn:Hfind.
  - unfold try_except, driver_find_element, ask, act, log, raise, mbind, M_bind,
      mret, M_ret. simpl.
    destruct (find_element env (tick st1) XPATH ERROR_CONTAINER); simpl; [| done].
    by destruct (is_displayed env _ _).
  - simpl. intros [= ->]. revert Hfind.
    unfold _find_element, try_except, wait_until, ask, mbind, M_bind.
    destruct (until env _ _ _ _ _); simpl; [done |]. unfold log.
    match goal with |- context [_save_crash_report env ?op ?s] =>
      destruct (_save_crash_report env op s) as [[[] | e] s'] eqn:Hrun end;
      [done |].
    intros [= -> ->]. revert Hrun.
    unfold _save_crash_report, try_except, save_screenshot, driver_page_source,
      write_file, log, ask, mkdir, mbind, M_bind, mret, M_ret, raise.
    repeat (case_decide; simpl); try done.
    all: destruct (get_screenshot_as_png env _); simpl;
         [destruct (page_source env _); simpl |]; done.
Qed.

(** ** The polling loop *)

Lemma no_completion_phrase (txt : string) :
  ¬ contains_any_case "upload complete" txt →
  ¬ contains_any_case "checks complete" txt →
  str_in "upload complete" (lower txt) || str_in "checks complete" (lower txt)
    = false.
Proof.
  intros H1 H2. apply orb_false_iff.
  split; apply not_true_is_false; intros H;
    apply PyStrFacts.contains_any_case_iff in H; done.
Qed.

Lemma completion_phrase (txt : string) :
  contains_any_case "upload complete" txt ∨ contains_any_case "checks complete" txt →
  str_in "upload complete" (lower txt) || str_in "checks complete" (lower txt)
    = true.
Proof.
  intros H. apply orb_true_iff.
  destruct H as [H | H]; [left | right];
    by apply PyStrFacts.contains_any_case_iff.
Qed.


(** C5.  After any number of passes that went on, a pass that reads a
    text with "upload complete" or "checks complete" in it, in whatever
    letter case, leaves the loop, and [wait_for_upload_to_complete]
    returns normally once it has fuel for these passes. *)
Theorem wait_for_upload_completes (st0 st : State) (k fuel : nat)
    (el : WebElement) :
  continues (wait_iteration env 10) k
    (record (Log Debug "Waiting for the video to finish uploading...") st0) st →
  until env (tick st) presence_of_element_located XPATH
    UPLOADING_STATUS_CONTAINER 10 = Some el →
  let txt := text env (S (tick st)) el in
  contains_any_case "upload complete" txt ∨
  contains_any_case "checks complete" txt →
  ∃ note,
    let st' := after 2 [Log Debug note;
                        Log Debug "Upload and processing finished."] st in
    wait_iteration env 10 st = (Return Break, st') ∧
    wait_for_upload_to_complete env (k + S fuel) st0 = (Return (Some tt), st').
Proof.
  intros Hk Hfound txt Hphrase.
  pose proof (wait_iteration_found env 10 st el Hfound) as Hrun.
  cbv zeta in Hrun. fold txt in Hrun.
  rewrite (completion_phrase txt Hphrase) in Hrun.
  exists (progress_note txt). cbv zeta. split; [done |].
  unfold wait_for_upload_to_complete, log, mbind at 1, M_bind at 1.
  rewrite (while_true_continues _ _ _ _ _ Hk).
  by apply while_true_break.
Qed.


(** C6.  The claim is that a lookup of the progress element that times
    out ends the loop without an error for the caller, after a warning,
    and the handler of the loop is written for that.  But the lookup makes
    its crash report before it raises the timeout error again, and the
    report makes its directories outside of any [try]: when [crash] is a
    file, or the directory of the report is there already, [mkdir()]
    raises [FileExistsError] in place of the timeout error.  The handler
    of the loop does not catch it: after any number of passes that went
    on, [wait_for_upload_to_complete] raises it to its caller, and the
    last line of the log is the error line of the lookup, not a
    warning. *)
Theorem wait_for_upload_lookup_timeout_escapes (st0 st : State) (k fuel : nat) :
  let dir :=
    crash_dir (timeout_operation_name UPLOADING_STATUS_CONTAINER)
      (now env (S (tick st))) in
  continues (wait_iteration env 10) k
    (record (Log Debug "Waiting for the video to finish uploading...") st0) st →
  until env (tick st) presence_of_element_located XPATH
    UPLOADING_STATUS_CONTAINER 10 = None →
  ¬ crash_dir_free st dir →
  ∃ p st',
    (p = "crash" ∨ p = dir) ∧
    wait_for_upload_to_complete env (k + S fuel) st0
      = (Raise (FileExistsError p), st') ∧
    trace st' =
      trace st ++
        [Log Error ("TimeoutException while trying to find element: "
                    +:+ UPLOADING_STATUS_CONTAINER)].
Proof.
  intros dir Hk Hwait Hnot.
  destruct (find_element_timeout_blocked env XPATH UPLOADING_STATUS_CONTAINER
              presence_of_element_located (Some 10%Z) st Hwait Hnot)
    as (p & st' & Hp & Hfind & Htr & _).
  exists p, st'. split_and!; [done | | done].
  pose proof (wait_iteration_file_exists env 10 st st' p Hfind) as Hrun.
  unfold wait_for_upload_to_complete, log, mbind at 1, M_bind at 1.
  rewrite (while_true_continues _ _ _ _ _ Hk).
  by apply while_true_raise.
Qed.

(** ** The lookup with a crash report *)

(** C3, amended.  When the wait times out and the crash directory
    [crash/find_element_timeout_<value, cleaned>_<timestamp>] can be made,
    [_find_element] logs the failure, makes the directory, and raises the
    timeout error again.  The screenshot and the page are both saved in
    the directory when the driver delivers them; when the driver raises,
    the failure to save is logged instead. *)
Theorem find_element_timeout_reports_and_reraises (by_ : By) (value : string)
    (condition : Condition) (timeout : option Z) (st : State) :
  let dir := crash_dir (timeout_operation_name value) (now env (S (tick st))) in
  until env (tick st) condition by_ value (wait_for timeout) = None →
  crash_dir_free st dir →
  ∃ st' note,
    _find_element env by_ value condition timeout st
      = (Raise (TimeoutException ""), st') ∧
    trace st' =
      trace st ++
        [Log Error ("TimeoutException while trying to find element: " +:+ value);
         Log Error note] ∧
    dir ∈ dirs st' ∧
    report_outcome env (S (S (tick st))) st' dir note.
Proof.
  intros dir Hwait Hfree.
  destruct (find_element_timeout_run env by_ value condition timeout st Hwait Hfree)
    as (st' & note & Hrun & Htr & Hd & Hout & _).
  exists st', note. split_and!; try done.
  rewrite Hd. apply elem_of_union_l. by apply elem_of_singleton.
Qed.

(** ** The conditional toggle *)

(** C4.  One call of [_click_if_not_selected] adds at most one click: none
    when the element is found with its [checked] attribute set, one when
    it is found without.  Two calls in a row, the first on a control that
    is checked, add at most one click, and none when the second call finds
    the control checked as well. *)
Theorem click_if_not_selected_at_most_one_click (locator : By * string)
    (msg : string) (st : State) :
  let toggle := _click_if_not_selected env locator msg in
  let found s el :=
    until env (tick s) presence_of_element_located locator.1 locator.2 self_wait
      = Some el in
  let checked s el := get_attribute env (S (tick s)) el "checked" in
  clicks (trace (toggle st).2) ≤ clicks (trace st) + 1 ∧
  (∀ el, found st el → is_Some (checked st el) →
     toggle st = (Return tt, (toggle st).2) ∧
     clicks (trace (toggle st).2) = clicks (trace st) ∧
     clicks (trace ((toggle;; toggle) st).2) ≤ clicks (trace st) + 1 ∧
     (∀ el', found (toggle st).2 el' → is_Some (checked (toggle st).2 el') →
        clicks (trace ((toggle;; toggle) st).2) = clicks (trace st))) ∧
  (∀ el, found st el → checked st el = None →
     clicks (trace (toggle st).2) = clicks (trace st) + 1).
Proof.
  intros toggle found checked.
  assert (∀ s el, found s el → is_Some (checked s el) →
            toggle s = (Return tt, (toggle s).2) ∧
            clicks (trace (toggle s).2) = clicks (trace s)) as Hchecked.
  { intros s el Hf [v Hv]. unfold toggle.
    rewrite (click_if_not_selected_found env locator msg s el Hf).
    unfold checked in Hv. rewrite Hv. simpl. split; [done |].
    rewrite clicks_app. vm_compute (clicks [_]). lia. }
  split_and!.
  - destruct (click_if_not_selected_clicks env locator msg st) as (evs & Htr & Hc).
    fold toggle in Htr. rewrite Htr, clicks_app. lia.
  - intros el Hf Hc. destruct (Hchecked st el Hf Hc) as [Hrun Hsame].
    assert ((toggle;; toggle) st = toggle (toggle st).2) as Htwice.
    { unfold mbind, M_bind. by rewrite Hrun. }
    split_and!; try done.
    + rewrite Htwice.
      destruct (click_if_not_selected_clicks env locator msg (toggle st).2)
        as (evs & Htr & Hle).
      fold toggle in Htr. rewrite Htr, clicks_app, Hsame. lia.
    + intros el' Hf' Hc'. rewrite Htwice.
      destruct (Hchecked _ el' Hf' Hc') as [_ ->]. done.
  - intros el Hf Hv. unfold toggle.
    rewrite (click_if_not_selected_found env locator msg st el Hf).
    unfold checked in Hv. rewrite Hv. simpl.
    rewrite clicks_app. by vm_compute (clicks [_; _]).
Qed.

(** ** Writing in a field *)

Lemma element_eqb_refl (el : WebElement) : element_eqb el el = true.
Proof. destruct el. simpl. apply Nat.eqb_refl. Qed.

Lemma type_text (system : string) (txt : string) :
  ∀ old,
    type_keys system None (keys_of txt) {| content := old; all_selected := false |}
      = {| content := old +:+ txt; all_selected := false |}.
Proof.
  induction txt as [|c txt IH]; intros old; simpl.
  - by rewrite PyStrFacts.append_empty_r.
  - unfold keys_of in IH. unfold insert_char at 1. simpl. rewrite IH.
    by rewrite PyStrFacts.append_assoc.
Qed.

Lemma select_all_typed (system : string) (f : TextField) :
  type_keys system None [select_all_modifier system; KChar "a"] f
    = {| content := content f; all_selected := true |}.
Proof.
  simpl. unfold select_all_modifier. by destruct (String.eqb system "Darwin").
Qed.

(** C7.  Writing with [select_all=True] sends, in this order: a click on
    the field, the select-all combination of the platform, backspace, the
    text.  On a text field these events leave the text and nothing of what
    was there. *)
Theorem write_in_field_clears_then_types (field : WebElement) (txt : string)
    (st : State) :
  let system := platform_system env in
  let evs :=
    [Click field; Sleep ACTION_WAIT_TIME;
     SendKeys field [select_all_modifier system; KChar "a"];
     Sleep ACTION_WAIT_TIME;
     SendKeys field [BACKSPACE];
     SendKeys field (keys_of txt)] in
  _write_in_field env field (keys_of txt) true st = (Return tt, after 6 evs st) ∧
  ∀ old selected,
    replay system field evs {| content := old; all_selected := selected |}
      = {| content := txt; all_selected := false |}.
Proof.
  intros system evs. split.
  - unfold _write_in_field, _clear_field, sleep, act, mbind, M_bind. simpl.
    fold system. unfold evs, select_all_modifier.
    destruct (String.eqb system "Darwin"); simpl; same_state.
  - intros old selected. unfold evs, replay. cbn [fold_left].
    unfold field_event. rewrite !element_eqb_refl, select_all_typed.
    cbn [type_keys backspace content all_selected]. by rewrite type_text.
Qed.

(** ** The title and the description *)

Variable metadata : gmap string PyVal.

(** With no text box at all the wait times out, and the error that
    reaches the caller is the timeout error. *)
Lemma set_title_no_textbox (st : State) :
  let dir := crash_dir "set_title_and_description_error" (now env (S (tick st))) in
  until_all env (tick st) ID TEXTBOX_ID self_wait = [] →
  crash_dir_free st dir →
  (set_title_and_description env metadata st).1 = Raise (TimeoutException "").
Proof.
  intros dir Hnone Hfree.
  destruct (save_crash_report_run env "set_title_and_description_error" (bump st))
    as (st' & note & Hrun & _); [done |].
  unfold set_title_and_description, try_except, wait_until_all, ask,
    mbind, M_bind. rewrite Hnone. simpl. by rewrite Hrun.
Qed.

(** C8, amended.  When the wait for the text boxes comes back with fewer
    than two and the crash directory
    [crash/set_title_and_description_error_<timestamp>] can be made,
    [set_title_and_description] makes the directory and raises the
    runtime error, which is not a timeout error.  The screenshot and the
    page are both saved when the driver delivers them; when the driver
    raises, the failure to save is logged instead. *)
Theorem set_title_too_few_textboxes (st st1 : State) (textboxes : list WebElement) :
  let dir := crash_dir "set_title_and_description_error" (now env (S (tick st))) in
  wait_until_all env self_wait ID TEXTBOX_ID st = (Return textboxes, st1) →
  length textboxes < 2 →
  crash_dir_free st dir →
  ∃ st' note,
    set_title_and_description env metadata st
      = (Raise (RuntimeError "Could not find title and description textboxes."),
         st') ∧
    (∀ m, RuntimeError "Could not find title and description textboxes."
            ≠ TimeoutException m) ∧
    trace st' = trace st ++ [Log Error note] ∧
    dir ∈ dirs st' ∧
    report_outcome env (S (S (tick st))) st' dir note.
Proof.
  intros dir Hwait Hlen Hfree.
  assert (st1 = bump st ∧ ∃ b, textboxes = [b]) as [-> [b ->]].
  { revert Hwait. unfold wait_until_all, ask, mbind, M_bind.
    destruct (until_all env (tick st) ID TEXTBOX_ID self_wait) as [|b [|b' l]];
      simpl; [done | | ].
    - intros [= <- <-]. eauto.
    - intros [= <- <-]. simpl in Hlen. lia. }
  destruct (save_crash_report_run env "set_title_and_description_error" (bump st))
    as (st' & note & Hrun & Htr & Hd & Hout & _); [done |].
  exists st', note.
  unfold set_title_and_description, try_except.
  rewrite (bind_return _ _ _ _ _ Hwait). unfold raise at 1.
  rewrite (bind_return _ _ _ _ _ Hrun). split_and!; try done.
  rewrite Hd. apply elem_of_union_l. by apply elem_of_singleton.
Qed.

(** ** The video identifier *)

(** An element without [href]: [get_attribute] gives [None], which has no
    [split]. *)
Lemma get_video_id_without_href (st : State) (el : WebElement) :
  until env (tick st) presence_of_element_located XPATH VIDEO_URL_ELEMENT
    self_wait = Some el →
  get_attribute env (S (tick st)) el "href" = None →
  (get_video_id env st).1
    = Raise (AttributeError "'NoneType' object has no attribute 'split'").
Proof.
  intros Hfound Hhref. unfold get_video_id.
  rewrite (bind_return _ _ _ _ _ (find_element_found env _ _ _ None _ _ Hfound)).
  unfold ask, mbind, M_bind. simpl. by rewrite Hhref.
Qed.

(** C9.  The claim is that [get_video_id] returns the identifier when
    the element is found and none when the extraction fails, and the code
    is written for that: it is annotated [str | None], tests the element
    and ends with [return None].  It returns the part of the [href] after
    the last ["/"] when the element is found and has an [href].  But when
    the lookup fails [_find_element] raises, and the same error reaches
    the caller; and an element that is found is true, so that
    [get_video_id] never returns [None]. *)
Theorem get_video_id_returns_id_or_raises (st : State) :
  (∀ el href,
     until env (tick st) presence_of_element_located XPATH VIDEO_URL_ELEMENT
       self_wait = Some el →
     get_attribute env (S (tick st)) el "href" = Some href →
     get_video_id env st
       = (Return (Some (last_item (split "/" href))), after 2 [] st)) ∧
  (∀ e st1,
     _find_element env XPATH VIDEO_URL_ELEMENT presence_of_element_located None st
       = (Raise e, st1) →
     get_video_id env st = (Raise e, st1)) ∧
  (get_video_id env st).1 ≠ Return None.
Proof.
  split_and!.
  - intros el href Hfound Hhref. unfold get_video_id.
    rewrite (bind_return _ _ _ _ _ (find_element_found env _ _ _ None _ _ Hfound)).
    unfold ask, mbind, M_bind. simpl. rewrite Hhref. same_state.
  - intros e st1 Hfind. unfold get_video_id. by rewrite (bind_raise _ _ _ _ _ Hfind).
  - unfold get_video_id, mbind at 1, M_bind at 1.
    destruct (_find_element env _ _ _ _ st) as [[el | e] st1]; [| done].
    unfold element_truthy, ask, mbind, M_bind. simpl.
    by destruct (get_attribute env (tick st1) el "href").
Qed.

(** ** Altered content *)

(** C10.  Without the altered-content key in the metadata
    [set_altered_content] returns at once and leaves the state as it is:
    no lookup, no click.  With the flag [False] it is the conditional
    toggle of the "No" radio button, with [True] that of the "Yes" radio
    button; when that button is found unchecked it gets the one click. *)
Theorem set_altered_content_absent_false_true (st : State) :
  (metadata !! VIDEO_ALTERED_CONTENT = None →
     set_altered_content env metadata st = (Return tt, st)) ∧
  (∀ flag,
     metadata !! VIDEO_ALTERED_CONTENT = Some (PBool flag) →
     let xpath :=
       if flag then ALTERED_CONTENT_YES_RADIO else ALTERED_CONTENT_NO_RADIO in
     let answer := if flag then "Yes" else "No" in
     set_altered_content env metadata st
       = _click_if_not_selected env (XPATH, xpath)
           ("Altered content: " +:+ answer) st ∧
     ∀ el,
       until env (tick st) presence_of_element_located XPATH xpath self_wait
         = Some el →
       get_attribute env (S (tick st)) el "checked" = None →
       set_altered_content env metadata st =
         (Return tt,
          after 3 [ExecuteScript click_script [el];
                   Log Debug ("Successfully selected 'Altered content: "
                              +:+ answer +:+ "'")] st)).
Proof.
  unfold set_altered_content, metadata_get. split.
  - by intros ->.
  - intros flag Hflag. cbv zeta. rewrite Hflag. simpl.
    split; [done |]. intros el Hfound Hattr.
    rewrite (click_if_not_selected_found env (XPATH, _) _ st el Hfound), Hattr.
    by destruct flag.
Qed.

End Properties.

(** * The properties on concrete pages *)

(** C1.  The claim is that [publish_video] raises a runtime error with
    the text of the error dialog and does not click the done button when
    the dialog is displayed.  On a page whose error dialog is displayed
    and reads "Daily upload limit reached" the code returns normally and
    has clicked the done button: its own [RuntimeError] is caught by the
    bare [except] that follows the [raise]. *)
Theorem publish_video_swallows_error_dialog :
  let env := page_showing "Daily upload limit reached" (λ _, None) in
  find_element env 1 XPATH (@ERROR_CONTAINER sample_constants) = Some (Element 1) ∧
  is_displayed env 2 (Element 1) = true ∧
  text env 3 (Element 1) = "Daily upload limit reached" ∧
  @publish_video sample_constants env start =
    (Return tt,
     after 5 [Click (Element 1); Log Debug "Publish button clicked"] start).
Proof. by vm_compute. Qed.

Lemma start_crash_dir_free (dir : string) : crash_dir_free start dir.
Proof.
  split_and!; [by right | apply not_elem_of_empty | done].
Defined.



Lemma find_element_timeout_reports_and_reraises_witness :
  let env := page_without (Return "PNG") [] in
  let dir := "crash/find_element_timeout_a_b_2025-03-09_12-00-05" in
  ∃ st',
    _find_element env XPATH "//a/b" presence_of_element_located None start
      = (Raise (TimeoutException ""), st') ∧
    crash_report_saved st' dir "PNG" "<html></html>".
Proof.
  intros env dir.
  destruct (find_element_timeout_reports_and_reraises env XPATH "//a/b"
              presence_of_element_located None start)
    as (st' & note & Hrun & _ & _ & Hout).
  - reflexivity.
  - apply start_crash_dir_free.
  - exists st'. split; [exact Hrun |].
    destruct Hout as [(png & html & [= <-] & [= <-] & Hsaved & _) | (e & He & _)].
    + exact Hsaved.
    + destruct He as [He | (png & _ & He)]; discriminate He.
Defined.

(** When the driver cannot take the screenshot, the timeout error is
    raised again and there is no crash report on disk. *)
Lemma find_element_timeout_without_report :
  let env := page_without (Raise (WebDriverException "no such window")) [] in
  until env (tick start) presence_of_element_located XPATH "//a/b" self_wait = None ∧
  ∃ st',
    _find_element env XPATH "//a/b" presence_of_element_located None start
      = (Raise (TimeoutException ""), st') ∧
    files st' = ∅ ∧
    ¬ ∃ dir png html, crash_report_saved st' dir png html.
Proof.
  intros env. split; [done |].
  destruct (find_element_timeout_run env XPATH "//a/b"
              presence_of_element_located None start)
    as (st' & note & Hrun & _ & _ & _ & Hfiles);
    [reflexivity | apply start_crash_dir_free |].
  assert (files st' = ∅) as Hnone by (by eapply Hfiles).
  exists st'. split_and!; [done | done |].
  intros (dir & png & html & _ & Hshot & _).
  rewrite Hnone, lookup_empty in Hshot. discriminate Hshot.
Qed.

Lemma click_if_not_selected_at_most_one_click_witness :
  let env := page_showing "" (λ name, if String.eqb name "checked" then Some "true" else None) in
  let toggle := _click_if_not_selected env (NAME, "VIDEO_MADE_FOR_KIDS_NOT_MFK") "Not made for kids" in
  clicks (trace ((toggle;; toggle) start).2) = 0.
Proof.
  intros env toggle.
  destruct (click_if_not_selected_at_most_one_click env
              (NAME, "VIDEO_MADE_FOR_KIDS_NOT_MFK") "Not made for kids" start)
    as (_ & Hchecked & _).
  destruct (Hchecked (Element 1)) as (_ & _ & _ & Htwice).
  - reflexivity.
  - by eexists.
  - apply (Htwice (Element 1)).
    + reflexivity.
    + by eexists.
Defined.

Lemma wait_for_upload_completes_witness :
  let env :=
    page_over_time (λ _, true)
      (λ t, if (t <? 3)%nat then "Uploading 50% ... 2 minutes left"
            else "Checks complete. No issues found.") in
  ∃ st',
    @wait_for_upload_to_complete sample_constants env 2 start
      = (Return (Some tt), st').
Proof.
  intros env.
  destruct (@wait_for_upload_completes sample_constants env start
              (after 3 [Log Debug "Waiting for the video to finish uploading...";
                        Log Debug "Upload progress: 50%"; Sleep 1] start)
              1 0 (Element 1))
    as (note & _ & Hrun).
  - eapply continues_S; [| apply continues_0]. by vm_compute.
  - reflexivity.
  - right. apply PyStrFacts.contains_any_case_iff; reflexivity.
  - eexists. exact Hrun.
Defined.

Lemma wait_for_upload_lookup_timeout_escapes_witness :
  let env := page_without (Return "PNG") [] in
  ∃ st',
    @wait_for_upload_to_complete sample_constants env 1 crash_is_a_file
      = (Raise (FileExistsError "crash"), st') ∧
    trace st' =
      [Log Debug "Waiting for the video to finish uploading...";
       Log Error
         ("TimeoutException while trying to find element: "
          +:+ @UPLOADING_STATUS_CONTAINER sample_constants)].
Proof.
  intros env.
  destruct (@wait_for_upload_lookup_timeout_escapes sample_constants env
              crash_is_a_file
              (record (Log Debug "Waiting for the video to finish uploading...")
                 crash_is_a_file) 0 0)
    as (p & st' & Hp & Hrun & Htr).
  - apply continues_0.
  - reflexivity.
  - intros [[Hdir | Hfile] _].
    + by apply not_elem_of_empty in Hdir.
    + discriminate Hfile.
  - exists st'. split; [| exact Htr].
    destruct Hp as [-> | ->]; [exact Hrun |].
    exfalso. revert Hrun.
    unfold wait_for_upload_to_complete, log, mbind at 1, M_bind at 1.
    rewrite (while_true_raise _ 0 _
               (record
                  (Log Error
                     ("TimeoutException while trying to find element: "
                      +:+ @UPLOADING_STATUS_CONTAINER sample_constants))
                  (bump (record
                           (Log Debug
                              "Waiting for the video to finish uploading...")
                           crash_is_a_file)))
               (FileExistsError "crash")); [discriminate | reflexivity].
Defined.

Lemma set_title_too_few_textboxes_witness :
  let env := page_without (Return "PNG") [Element 1] in
  let dir := "crash/set_title_and_description_error_2025-03-09_12-00-05" in
  ∃ st',
    @set_title_and_description sample_constants env ∅ start
      = (Raise (RuntimeError "Could not find title and description textboxes."),
         st') ∧
    crash_report_saved st' dir "PNG" "<html></html>".
Proof.
  intros env dir.
  destruct (@set_title_too_few_textboxes sample_constants env ∅ start (bump start)
              [Element 1])
    as (st' & note & Hrun & _ & _ & _ & Hout).
  - reflexivity.
  - simpl. lia.
  - apply start_crash_dir_free.
  - exists st'. split; [exact Hrun |].
    destruct Hout as [(png & html & [= <-] & [= <-] & Hsaved & _) | (e & He & _)].
    + exact Hsaved.
    + destruct He as [He | (png & _ & He)]; discriminate He.
Defined.

(** With one text box and a driver that cannot take the screenshot, the
    runtime error is raised and there is no crash report on disk. *)
Lemma set_title_one_textbox_without_report :
  let env := page_without (Raise (WebDriverException "no such window")) [Element 1] in
  @wait_until_all env self_wait ID (@TEXTBOX_ID sample_constants) start
    = (Return [Element 1], bump start) ∧
  ∃ st',
    @set_title_and_description sample_constants env ∅ start
      = (Raise (RuntimeError "Could not find title and description textboxes."),
         st') ∧
    files st' = ∅ ∧
    ¬ ∃ dir png html, crash_report_saved st' dir png html.
Proof.
  intros env. split; [done |].
  destruct (save_crash_report_run env "set_title_and_description_error"
              (bump start))
    as (st' & note & Hrun & _ & _ & _ & Hfiles); [apply start_crash_dir_free |].
  assert (files st' = ∅) as Hnone by (by eapply Hfiles).
  exists st'. split_and!; [| done |].
  - unfold set_title_and_description, try_except.
    rewrite (bind_return
               (wait_until_all env self_wait ID (@TEXTBOX_ID sample_constants))
               _ start (bump start) [Element 1] eq_refl).
    unfold raise at 1. by rewrite (bind_return _ _ _ _ _ Hrun).
  - intros (dir & png & html & _ & Hshot & _).
    rewrite Hnone, lookup_empty in Hshot. discriminate Hshot.
Qed.

Lemma get_video_id_returns_id_or_raises_witness :
  let env :=
    page_showing ""
      (λ name, if String.eqb name "href" then Some "https://youtu.be/dQw4w9WgXcQ"
               else None) in
  @get_video_id sample_constants env start
    = (Return (Some "dQw4w9WgXcQ"), after 2 [] start).
Proof.
  intros env.
  destruct (@get_video_id_returns_id_or_raises sample_constants env start)
    as (Hid & _).
  apply (Hid (Element 1) "https://youtu.be/dQw4w9WgXcQ"); reflexivity.
Defined.

(** When the element is not found, [get_video_id] does not return
    [None]: the timeout error reaches the caller. *)
Lemma get_video_id_raises_when_not_found :
  let env := page_without (Return "PNG") [] in
  until env (tick start) presence_of_element_located XPATH
    (@VIDEO_URL_ELEMENT sample_constants) self_wait = None ∧
  (@get_video_id sample_constants env start).1 = Raise (TimeoutException "") ∧
  (@get_video_id sample_constants env start).1 ≠ Return None.
Proof. split_and!; by vm_compute. Qed.

Lemma set_altered_content_absent_false_true_witness :
  let env := page_showing "" (λ _, None) in
  @set_altered_content sample_constants env ∅ start = (Return tt, start) ∧
  @set_altered_content sample_constants env {["altered_content" := PBool false]} start
    = (Return tt,
       after 3 [ExecuteScript click_script [Element 1];
                Log Debug "Successfully selected 'Altered content: No'"] start).
Proof.
  intros env. split.
  - destruct (@set_altered_content_absent_false_true sample_constants env ∅ start)
      as (Habsent & _).
    apply Habsent. reflexivity.
  - destruct (@set_altered_content_absent_false_true sample_constants env
                {["altered_content" := PBool false]} start)
      as (_ & Hflag).
    destruct (Hflag false) as (_ & Hclick); [reflexivity |].
    apply (Hclick (Element 1)); reflexivity.
Defined.

(** * More about the crash report and the lookup *)
Section MoreCrashReport.

Variable env : Env.

Lemma save_crash_report_error_logs (op : string) (st : State) :
  ∃ evs,
    trace (_save_crash_report env op st).2 = trace st ++ evs ∧
    forallb is_error_log evs = true ∧ length evs ≤ 1.
Proof.
  unfold _save_crash_report, try_except, save_screenshot, driver_page_source,
    write_file, log, ask, mkdir, mbind, M_bind, mret, M_ret, raise.
  repeat (case_decide; simpl);
    try (exists []; rewrite app_nil_r; split_and!; [done | done | simpl; lia]).
  all: destruct (get_screenshot_as_png env _); simpl;
       [destruct (page_source env _); simpl |];
       eexists [_]; split_and!; done.
Qed.

(** The events of a lookup: error lines of the log, two at most. *)
Lemma find_element_error_logs (by_ : By) (value : string)
    (condition : Condition) (timeout : option Z) (st : State) :
  ∃ evs,
    trace (_find_element env by_ value condition timeout st).2 = trace st ++ evs ∧
    forallb is_error_log evs = true ∧ length evs ≤ 2.
Proof.
  unfold _find_element, try_except, wait_until, ask, mbind, M_bind.
  destruct (until env _ _ _ _ _); simpl.
  { exists []. rewrite app_nil_r. split_and!; [done | done | simpl; lia]. }
  unfold log.
  match goal with |- context [_save_crash_report env ?op ?s] =>
    destruct (save_crash_report_error_logs op s) as (evs & Htr & Hlog & Hlen);
    destruct (_save_crash_report env op s) as [[[] | e] st'] eqn:Hrun
  end; simpl in *; rewrite Htr; simpl; rewrite <- app_assoc;
    eexists; (split; [done |]); simpl; (split; [done | lia]).
Qed.

(** X1.  Whatever the page does, [_find_element] adds at most two events,
    both error lines of the log: it never clicks, types, runs a script or
    sleeps. *)
Theorem find_element_only_logs_errors (by_ : By) (value : string)
    (condition : Condition) (timeout : option Z) (st : State) :
  ∃ evs,
    trace (_find_element env by_ value condition timeout st).2 = trace st ++ evs ∧
    forallb is_error_log evs = true ∧ length evs ≤ 2.
Proof. apply find_element_error_logs. Qed.

(** X2.  When the wait times out and the crash directory of this lookup
    and second is already there, [_find_element] raises the
    [FileExistsError] of [mkdir()], not the timeout error; the timeout is
    in the log, and no file is written. *)
Theorem find_element_timeout_raises_file_exists (by_ : By) (value : string)
    (condition : Condition) (timeout : option Z) (st : State) :
  let dir := crash_dir (timeout_operation_name value) (now env (S (tick st))) in
  until env (tick st) condition by_ value (wait_for timeout) = None →
  "crash" ∈ dirs st → dir ∈ dirs st →
  _find_element env by_ value condition timeout st =
    (Raise (FileExistsError dir),
     after 2
       [Log Error ("TimeoutException while trying to find element: " +:+ value)]
       st).
Proof.
  intros dir Hwait Hcrash Hdir.
  set (st1 := record
    (Log Error ("TimeoutException while trying to find element: " +:+ value))
    (bump st)).
  pose proof (save_crash_report_directory_exists env
                (timeout_operation_name value) st1 Hcrash Hdir) as Hrun.
  unfold _find_element, try_except, wait_until, ask, mbind, M_bind.
  rewrite Hwait. unfold raise at 1. unfold log. fold st1. rewrite Hrun.
  done.
Qed.

Lemma length_take_le (n : nat) (s : string) : String.length (take n s) ≤ n.
Proof.
  revert s. induction n as [|n IH]; intros [|c s]; simpl; try lia.
  specialize (IH s). lia.
Qed.

Lemma length_append (a b : string) :
  String.length (a +:+ b) = String.length a + String.length b.
Proof.
  induction a as [|c a IH]; [done |].
  change (String c a +:+ b) with (String c (a +:+ b)). simpl. by rewrite IH.
Qed.

Lemma length_strftime (t : DateTime) : String.length (strftime t) = 19.
Proof. unfold strftime. by rewrite !length_append. Qed.

(** X3.  The name of the crash directory of a lookup,
    [find_element_timeout_<value, cleaned>_<timestamp>], has no ["/"] and
    at most 91 characters, whatever the locator is: the directory is
    always a direct child of [crash]. *)
Theorem lookup_crash_directory_name (value : string) (t : DateTime) :
  let name := timeout_operation_name value +:+ "_" +:+ strftime t in
  crash_dir (timeout_operation_name value) t = "crash/" +:+ name ∧
  no_slash name = true ∧
  String.length name ≤ 91.
Proof.
  intros name. split_and!.
  - done.
  - apply crash_dir_name_no_slash.
  - unfold name, timeout_operation_name.
    rewrite !length_append, length_strftime.
    pose proof (length_take_le 50
      (replace "/" "_" (replace "//" EmptyString value))) as H.
    revert H. generalize (String.length
      (take 50 (replace "/" "_" (replace "//" EmptyString value)))).
    intros n H. simpl. lia.
Qed.

(** X4.  Once its two directories can be made, [_save_crash_report]
    returns normally whatever the driver does: an exception of the
    screenshot or of the page source does not reach the caller, it is
    caught and logged in the one error line the report writes. *)
Theorem save_crash_report_catches_driver_errors (op : string) (st : State) :
  let dir := crash_dir op (now env (tick st)) in
  crash_dir_free st dir →
  ∃ st' note,
    _save_crash_report env op st = (Return tt, st') ∧
    trace st' = trace st ++ [Log Error note] ∧
    (∀ e, get_screenshot_as_png env (S (tick st)) = Raise e →
          note = "Failed to save crash report: " +:+ exn_str e) ∧
    (∀ png e, get_screenshot_as_png env (S (tick st)) = Return png →
              page_source env (S (S (tick st))) = Raise e →
              note = "Failed to save crash report: " +:+ exn_str e).
Proof.
  intros dir Hfree.
  destruct (save_crash_report_run env op st Hfree)
    as (st' & note & Hrun & Htr & _ & Hout & _).
  exists st', note. split_and!; [done | done | |].
  - intros e He.
    destruct Hout as [(png & html & Hs & _) | (e' & [Hs | (png & Hs & _)] & ->)];
      congruence.
  - intros png e Hshot Hpage.
    destruct Hout
      as [(png' & html & _ & Hp & _) | (e' & [Hs | (png' & _ & Hp)] & ->)];
      congruence.
Qed.

(** X5.  [_save_crash_report] keeps every directory, and it keeps every
    file but the two of its own report. *)
Theorem save_crash_report_keeps_disk (op : string) (st : State) (p : string) :
  let dir := crash_dir op (now env (tick st)) in
  p ≠ screenshot_file dir → p ≠ html_file dir →
  dirs st ⊆ dirs (_save_crash_report env op st).2 ∧
  files (_save_crash_report env op st).2 !! p = files st !! p.
Proof.
  intros dir Hshot Hhtml.
  unfold _save_crash_report, try_except, save_screenshot, driver_page_source,
    write_file, log, ask, mkdir, mbind, M_bind, mret, M_ret, raise.
  fold (crash_dir op (now env (tick st))). fold dir.
  repeat (case_decide; simpl);
    try (split; [done || apply union_subseteq_r | done]).
  all: destruct (get_screenshot_as_png env _); simpl;
       [destruct (page_source env _); simpl |];
       (split;
        [first [apply union_subseteq_r
               | etrans; [apply union_subseteq_r | apply union_subseteq_r]] |]);
       rewrite ?lookup_insert_ne; done.
Qed.

(** X6.  When the screenshot is taken and the page source then raises,
    [_save_crash_report] still returns: the screenshot is on disk, the
    page file is there and empty, and the log has the failure. *)
Theorem save_crash_report_page_source_fails (op : string) (st : State)
    (png : string) (e : Exn) :
  let dir := crash_dir op (now env (tick st)) in
  crash_dir_free st dir →
  get_screenshot_as_png env (S (tick st)) = Return png →
  page_source env (S (S (tick st))) = Raise e →
  ∃ st',
    _save_crash_report env op st = (Return tt, st') ∧
    files st' !! screenshot_file dir = Some png ∧
    files st' !! html_file dir = Some EmptyString ∧
    trace st' =
      trace st ++ [Log Error ("Failed to save crash report: " +:+ exn_str e)].
Proof.
  intros dir (Hcrash & Hdir & Hfile) Hshot Hpage.
  destruct (mkdir_crash st Hcrash) as (st1 & Hmk & Ht1 & Htr1 & Hf1 & Hd1).
  unfold _save_crash_report.
  rewrite (bind_return _ _ _ _ _ Hmk).
  unfold ask at 1. unfold mbind at 1, M_bind at 1. rewrite Ht1.
  fold (crash_dir op (now env (tick st))). fold dir.
  assert (dir ∉ dirs (bump st1)) as Hd.
  { simpl. rewrite Hd1, not_elem_of_union, not_elem_of_singleton.
    split; [apply crash_dir_not_crash | done]. }
  assert (files (bump st1) !! dir = None) as Hf by (simpl; by rewrite Hf1).
  rewrite (bind_return _ _ _ _ _ (mkdir_new false dir (bump st1) Hd Hf)).
  unfold try_except, save_screenshot, driver_page_source, write_file, log, ask.
  unfold mbind, M_bind, mret, M_ret, raise. simpl. rewrite Ht1, Hshot. simpl.
  rewrite Ht1, Hpage. simpl.
  eexists. split; [done |]. simpl. rewrite Htr1. split_and!; [| | done].
  - rewrite lookup_insert_ne, lookup_insert_eq; [done |].
    by intros ?%path_join_inj.
  - by rewrite lookup_insert_eq.
Qed.

End MoreCrashReport.

(** * More about the polling loop, publishing and the fields *)
Section MoreSteps.

Context `{K : Constant}.
Variable env : Env.

Ltac same_state :=
  rewrite ?bump_is_after, ?record_is_after, ?after_after; reflexivity.

Lemma forallb_app_true {A} (f : A → bool) (a b : list A) :
  forallb f a = true → forallb f b = true → forallb f (a ++ b) = true.
Proof. intros Ha Hb. rewrite forallb_app. by rewrite Ha, Hb. Qed.

Lemma error_logs_quiet (evs : list Event) :
  forallb is_error_log evs = true → forallb is_quiet evs = true.
Proof.
  induction evs as [|ev evs IH]; simpl; [done |].
  intros [Hev Hevs]%andb_true_iff. rewrite (IH Hevs), andb_true_r.
  by destruct ev as [[] | | | |].
Qed.

(** A pass never raises the timeout error, and all it adds to the trace
    are lines of the log and sleeps. *)
Lemma wait_iteration_quiet (short_timeout : Z) (st : State) :
  (∀ msg, (wait_iteration env short_timeout st).1 ≠ Raise (TimeoutException msg)) ∧
  ∃ evs,
    trace (wait_iteration env short_timeout st).2 = trace st ++ evs ∧
    forallb is_quiet evs = true.
Proof.
  unfold wait_iteration, try_except, mbind, M_bind, mret, M_ret.
  destruct (find_element_error_logs env XPATH UPLOADING_STATUS_CONTAINER
              presence_of_element_located (Some short_timeout) st)
    as (evs & Htr & Hlog%error_logs_quiet & _).
  destruct (_find_element env _ _ _ _ st) as [[el | e] st1]; simpl in *.
  - unfold ask, sleep, act. simpl.
    destruct (re_search (text env (tick st1) el)); unfold log; simpl;
      destruct (str_in "upload complete" _ || str_in "checks complete" _);
      simpl; (split; [done |]); rewrite Htr, <- !app_assoc;
      eexists; (split; [done |]); by apply forallb_app_true.
  - destruct e; simpl; try (split; [done | by exists evs]).
    split; [done |]. rewrite Htr, <- app_assoc.
    eexists; (split; [done |]); by apply forallb_app_true.
Qed.

(** X7.  [wait_for_upload_to_complete] never raises the timeout error,
    whatever the page does and however long it polls. *)
Theorem wait_for_upload_never_times_out (fuel : nat) (st : State) (msg : string) :
  (wait_for_upload_to_complete env fuel st).1 ≠ Raise (TimeoutException msg).
Proof.
  unfold wait_for_upload_to_complete, log, mbind at 1, M_bind at 1.
  generalize (record (Log Debug "Waiting for the video to finish uploading...") st).
  induction fuel as [|fuel IH]; intros s; simpl; [done |].
  unfold mbind at 1, M_bind at 1.
  destruct (wait_iteration_quiet 10 s) as [Hno _].
  destruct (wait_iteration env 10 s) as [[[] | e] s1]; simpl in *.
  - apply IH.
  - done.
  - intros [= ->]. by eapply Hno.
Qed.

(** X8.  [wait_for_upload_to_complete] leaves the page alone: all it adds
    to the trace are lines of the log and sleeps. *)
Theorem wait_for_upload_leaves_page_alone (fuel : nat) (st : State) :
  ∃ evs,
    trace (wait_for_upload_to_complete env fuel st).2 = trace st ++ evs ∧
    forallb is_quiet evs = true.
Proof.
  unfold wait_for_upload_to_complete, log, mbind at 1, M_bind at 1.
  assert (∀ s, ∃ evs,
            trace (while_true fuel (wait_iteration env 10) s).2 = trace s ++ evs ∧
            forallb is_quiet evs = true) as Hloop.
  { induction fuel as [|fuel IH]; intros s; simpl.
    - exists []. by rewrite app_nil_r.
    - unfold mbind at 1, M_bind at 1.
      destruct (wait_iteration_quiet 10 s) as [_ (evs & Htr & Hq)].
      destruct (wait_iteration env 10 s) as [[[] | e] s1]; simpl in *.
      + destruct (IH s1) as (evs' & Htr' & Hq').
        exists (evs ++ evs'). rewrite Htr', Htr, <- app_assoc.
        split; [done | by apply forallb_app_true].
      + by exists evs.
      + by exists evs. }
  destruct (Hloop (record
              (Log Debug "Waiting for the video to finish uploading...") st))
    as (evs & Htr & Hq).
  eexists. rewrite Htr. simpl. rewrite <- app_assoc. split; [done |].
  by apply forallb_app_true.
Qed.

(** X9.  The loop has no bound of its own: while the progress element is
    found and its text, a text of the characters U+0000..U+00FF, has no
    completion phrase, every pass asks for another one, so with fuel for
    [n] passes the loop has made [n] passes, each of three interactions,
    and is not left. *)
Theorem wait_for_upload_polls_without_bound (fuel : nat) (st : State) :
  (∀ t, ∃ el,
     until env t presence_of_element_located XPATH UPLOADING_STATUS_CONTAINER 10
       = Some el) →
  (∀ t el, ¬ contains_any_case "upload complete" (text env t el)) →
  (∀ t el, ¬ contains_any_case "checks complete" (text env t el)) →
  ∃ st',
    wait_for_upload_to_complete env fuel st = (Return None, st') ∧
    tick st' = 3 * fuel + tick st ∧
    length (List.filter is_sleep (trace st'))
      = fuel + length (List.filter is_sleep (trace st)).
Proof.
  intros Hfound Hup Hchecks.
  unfold wait_for_upload_to_complete, log, mbind at 1, M_bind at 1.
  assert (∀ s, ∃ s',
            while_true fuel (wait_iteration env 10) s = (Return None, s') ∧
            tick s' = 3 * fuel + tick s ∧
            length (List.filter is_sleep (trace s'))
              = fuel + length (List.filter is_sleep (trace s))) as Hloop.
  { induction fuel as [|fuel IH]; intros s.
    - by exists s.
    - destruct (Hfound (tick s)) as [el Hel].
      pose proof (wait_iteration_found env 10 s el Hel) as Hrun.
      cbv zeta in Hrun.
      rewrite (no_completion_phrase _ (Hup _ _) (Hchecks _ _)) in Hrun.
      rewrite (while_true_continue _ _ _ _ Hrun).
      destruct (IH (after 3 [Log Debug (progress_note (text env (S (tick s)) el));
                             Sleep USER_WAITING_TIME] s))
        as (s' & Hs' & Htick & Hsleep).
      exists s'. split; [done |]. rewrite Htick, Hsleep. simpl.
      rewrite List.filter_app, length_app. simpl. split; lia. }
  destruct (Hloop (record
              (Log Debug "Waiting for the video to finish uploading...") st))
    as (s' & Hs' & Htick & Hsleep).
  exists s'. split; [done |]. rewrite Htick, Hsleep. simpl.
  rewrite List.filter_app, length_app. simpl. split; lia.
Qed.

(** X10.  A pass that finds the progress element and reads a text of the
    characters U+0000..U+00FF first logs one line about it, whether or not
    the loop is left after it: the first percentage when the text has a
    percentage, which is a run of ASCII digits and not empty, and the text
    itself when it has none. *)
Theorem wait_iteration_first_log_line (st : State) (el : WebElement) :
  until env (tick st) presence_of_element_located XPATH
    UPLOADING_STATUS_CONTAINER 10 = Some el →
  let txt := text env (S (tick st)) el in
  ∃ note ev,
    trace (wait_iteration env 10 st).2 = trace st ++ [Log Debug note; ev] ∧
    (has_percentage txt →
       ∃ nn, first_percentage txt nn ∧ nn ≠ EmptyString ∧
             all_digits nn = true ∧
             note = "Upload progress: " +:+ nn +:+ "%") ∧
    (¬ has_percentage txt → note = "Upload status: " +:+ txt).
Proof.
  intros Hfound txt.
  pose proof (wait_iteration_found env 10 st el Hfound) as Hrun.
  cbv zeta in Hrun. fold txt in Hrun.
  exists (progress_note txt).
  destruct (str_in "upload complete" (lower txt)
            || str_in "checks complete" (lower txt));
    rewrite Hrun; simpl; eexists; (split; [done |]); unfold progress_note.
  all: split.
  all: try (intros Hno; by rewrite (proj2 (PyStrFacts.re_search_None txt) Hno)).
  all: intros Hhas; destruct (re_search txt) as [g |] eqn:Hs;
       [| by apply PyStrFacts.re_search_None in Hs].
  all: exists g; pose proof (PyStrFacts.re_search_sound _ _ Hs) as Hg;
       destruct Hg as (pre & post & Heq & Hn & Hd & Hrest);
       split_and!; try done; by exists pre, post.
Qed.

(** X11.  When the done button is found, [publish_video] clicks it once
    and returns normally, whatever the check of the error dialog finds:
    no dialog, a hidden one or a displayed one. *)
Theorem publish_video_always_clicks_done (st : State) (done_button : WebElement) :
  until env (tick st) element_to_be_clickable ID DONE_BUTTON 7200
    = Some done_button →
  ∃ n,
    publish_video env st =
      (Return tt,
       after n [Click done_button; Log Debug "Publish button clicked"] st) ∧
    3 ≤ n ≤ 5.
Proof.
  intros Hdone. unfold publish_video.
  rewrite (bind_return _ _ _ _ _ (find_element_found env _ _ _ (Some _) _ _ Hdone)).
  unfold try_except, driver_find_element, ask, act, log, raise, mbind, M_bind,
    mret, M_ret. simpl.
  destruct (find_element env (S (tick st)) XPATH ERROR_CONTAINER) as [dialog |];
    simpl.
  - destruct (is_displayed env (S (S (tick st))) dialog); simpl.
    + exists 5. split; [same_state | lia].
    + exists 4. split; [same_state | lia].
  - exists 3. split; [same_state | lia].
Qed.


(** ** The video identifier *)

Lemma split_from_not_nil (s : string) : ∀ acc, split_from "/" acc s ≠ [].
Proof.
  induction s as [|c s IH]; intros acc; cbn -[Ascii.eqb]; [done |].
  destruct (Ascii.eqb c "/"); [done | apply IH].
Qed.

Lemma split_from_last_segment (base : string) :
  ∀ acc vid,
    no_slash vid = true →
    last_item (split_from "/" acc (base +:+ "/" +:+ vid)) = vid.
Proof.
  assert (∀ vid acc, no_slash vid = true → split_from "/" acc vid = [acc +:+ vid])
    as Hplain.
  { induction vid as [|c vid IH]; intros acc; simpl.
    - by rewrite PyStrFacts.append_empty_r.
    - intros [Hc Hv]%andb_true_iff. apply negb_true_iff in Hc. rewrite Hc.
      rewrite (IH _ Hv). by rewrite PyStrFacts.append_assoc. }
  pose proof split_from_not_nil as Hne.
  induction base as [|c base IH]; intros acc vid Hv.
  - change (EmptyString +:+ "/" +:+ vid) with (String "/" vid).
    cbn -[Ascii.eqb]. by rewrite (Hplain vid EmptyString Hv).
  - change (String c base +:+ "/" +:+ vid) with (String c (base +:+ "/" +:+ vid)).
    cbn -[Ascii.eqb]. destruct (Ascii.eqb c "/").
    + unfold last_item in *. specialize (IH EmptyString vid Hv).
      destruct (split_from "/" EmptyString (base +:+ "/" +:+ vid)) eqn:Hs;
        [by apply Hne in Hs | done].
    + by apply IH.
Qed.

Lemma split_from_last_no_slash (s : string) :
  ∀ acc, no_slash acc = true → no_slash (last_item (split_from "/" acc s)) = true.
Proof.
  pose proof split_from_not_nil as Hne.
  induction s as [|c s IH]; intros acc Hacc; cbn -[Ascii.eqb]; [done |].
  destruct (Ascii.eqb c "/") eqn:Hc.
  - unfold last_item in *. specialize (IH EmptyString eq_refl).
    destruct (split_from "/" EmptyString s) eqn:Hs; [by apply Hne in Hs | done].
  - apply IH. rewrite PyStrFacts.no_slash_app, Hacc. simpl. by rewrite Hc.
Qed.

(** X12.  When the element is found and its [href] is [base/vid] with no
    ["/"] in [vid], [get_video_id] returns [vid]; so an href that ends
    with ["/"] gives the empty identifier. *)
Theorem get_video_id_last_segment (st : State) (el : WebElement)
    (base vid : string) :
  until env (tick st) presence_of_element_located XPATH VIDEO_URL_ELEMENT
    self_wait = Some el →
  get_attribute env (S (tick st)) el "href" = Some (base +:+ "/" +:+ vid) →
  no_slash vid = true →
  get_video_id env st = (Return (Some vid), after 2 [] st).
Proof.
  intros Hfound Hhref Hvid. unfold get_video_id.
  rewrite (bind_return _ _ _ _ _ (find_element_found env _ _ _ None _ _ Hfound)).
  unfold ask, mbind, M_bind. simpl. rewrite Hhref. unfold split.
  rewrite (split_from_last_segment base EmptyString vid Hvid). same_state.
Qed.

(** X13.  The identifier [get_video_id] returns never has a ["/"] in it. *)
Theorem get_video_id_has_no_slash (st st' : State) (vid : string) :
  get_video_id env st = (Return (Some vid), st') → no_slash vid = true.
Proof.
  unfold get_video_id, mbind at 1, M_bind at 1.
  destruct (_find_element env _ _ _ _ st) as [[el | e] st1]; [| done].
  unfold element_truthy, ask, mbind, M_bind. simpl.
  destruct (get_attribute env (tick st1) el "href") as [h |]; [| done].
  intros [= <- _]. by apply split_from_last_no_slash.
Qed.

(** ** Writing without clearing *)

(** X14.  Without [select_all], [_write_in_field] clicks the field, waits
    and types, and sends no select-all and no backspace: on a text field
    the text goes behind what was there. *)
Theorem write_in_field_appends (field : WebElement) (txt : string) (st : State) :
  let system := platform_system env in
  let evs :=
    [Click field; Sleep ACTION_WAIT_TIME; SendKeys field (keys_of txt)] in
  _write_in_field env field (keys_of txt) false st = (Return tt, after 3 evs st) ∧
  ∀ old selected,
    replay system field evs {| content := old; all_selected := selected |}
      = {| content := old +:+ txt; all_selected := false |}.
Proof.
  intros system evs. split.
  - unfold _write_in_field, sleep, act, mbind, M_bind. simpl. same_state.
  - intros old selected. unfold evs, replay. cbn [fold_left].
    unfold field_event. rewrite !element_eqb_refl.
    cbn [content all_selected]. by rewrite type_text.
Qed.

End MoreSteps.

(** * More about the title and the description *)
Section MoreTitle.

Context `{K : Constant}.
Variable env : Env.
Variable metadata : gmap string PyVal.

Ltac same_state :=
  rewrite ?bump_is_after, ?record_is_after, ?after_after; reflexivity.

Lemma write_in_field_clearing (field : WebElement) (keys : list Key) (st : State) :
  _write_in_field env field keys true st =
    (Return tt,
     after 6 (clear_events (platform_system env) field ++ [SendKeys field keys]) st).
Proof.
  unfold _write_in_field, _clear_field, sleep, act, mbind, M_bind. simpl.
  unfold clear_events, select_all_modifier.
  destruct (String.eqb (platform_system env) "Darwin"); simpl; same_state.
Qed.

Lemma write_in_field_typing (field : WebElement) (keys : list Key) (st : State) :
  _write_in_field env field keys false st =
    (Return tt,
     after 3 [Click field; Sleep ACTION_WAIT_TIME; SendKeys field keys] st).
Proof.
  unfold _write_in_field, sleep, act, mbind, M_bind. simpl. same_state.
Qed.

Lemma element_eqb_neq (a b : WebElement) : a ≠ b → element_eqb a b = false.
Proof.
  destruct a as [x], b as [y]. intros H. simpl. apply Nat.eqb_neq. congruence.
Qed.

Lemma replay_app (system : string) (field : WebElement) (a b : list Event)
    (f : TextField) :
  replay system field (a ++ b) f = replay system field b (replay system field a f).
Proof. unfold replay. by rewrite fold_left_app. Qed.

Lemma replay_elsewhere (system : string) (field : WebElement) (evs : list Event) :
  ∀ f, forallb (λ ev, negb (on_element field ev)) evs = true →
       replay system field evs f = f.
Proof.
  induction evs as [|ev evs IH]; intros f; [done |].
  simpl. intros [Hev Hevs]%andb_true_iff. apply negb_true_iff in Hev.
  unfold replay in *. simpl. rewrite <- (IH f Hevs) at 2. f_equal.
  destruct ev; simpl in *; try done; by rewrite Hev.
Qed.

Lemma replay_clear (system : string) (field : WebElement) (f : TextField) :
  replay system field (clear_events system field) f
    = {| content := EmptyString; all_selected := false |}.
Proof.
  unfold clear_events, replay. cbn [fold_left]. unfold field_event.
  rewrite !element_eqb_refl, select_all_typed. done.
Qed.

Lemma clear_elsewhere (system : string) (field other : WebElement) :
  other ≠ field →
  forallb (λ ev, negb (on_element field ev)) (clear_events system other) = true.
Proof.
  intros H. unfold clear_events. simpl. by rewrite (element_eqb_neq _ _ H).
Qed.

Lemma type_description (system : string) (description : string) :
  ∀ old,
    type_keys system None (description_keys description)
      {| content := old; all_selected := false |}
      = {| content := old +:+ description; all_selected := false |}.
Proof.
  induction description as [|c d IH]; intros old.
  - simpl. by rewrite PyStrFacts.append_empty_r.
  - unfold description_keys in *. cbn [list_ascii_of_string map].
    destruct (Ascii.eqb_spec c (ascii_of_nat 10)) as [-> | Hc];
      cbn [type_keys]; unfold insert_char at 1; cbn [all_selected content];
      rewrite IH; by rewrite PyStrFacts.append_assoc.
Qed.

Lemma wait_until_all_two (st : State) (a b : WebElement) (rest : list WebElement) :
  until_all env (tick st) ID TEXTBOX_ID self_wait = a :: b :: rest →
  wait_until_all env self_wait ID TEXTBOX_ID st = (Return (a :: b :: rest), bump st).
Proof.
  intros H. unfold wait_until_all, ask, mbind, M_bind. by rewrite H.
Qed.

Lemma metadata_there (key : string) (v : PyVal) (st : State) :
  metadata !! key = Some v →
  metadata_item metadata key st = (Return v, st).
Proof.
  intros H. unfold metadata_item. rewrite H. done.
Qed.

Lemma metadata_str (key value : string) (st : State) :
  metadata !! key = Some (PStr value) →
  (metadata_item metadata key ≫= str_with_replace) st = (Return value, st).
Proof.
  intros H. unfold metadata_item. rewrite H. done.
Qed.


Lemma metadata_missing_str (key : string) (st : State) :
  metadata !! key = None →
  (metadata_item metadata key ≫= str_with_replace) st = (Raise (KeyError key), st).
Proof.
  intros H. unfold metadata_item. rewrite H. done.
Qed.

(** The events of writing the title. *)
Lemma title_written (st : State) (title : string) (a b : WebElement)
    (rest : list WebElement) :
  until_all env (tick st) ID TEXTBOX_ID self_wait = a :: b :: rest →
  metadata !! VIDEO_TITLE = Some (PStr title) →
  let evs :=
    clear_events (platform_system env) a ++
    [SendKeys a (keys_of title);
     Log Debug ("The video title was set to " +:+ dquote +:+ title +:+ dquote)] in
  set_title_and_description env metadata st =
    try_except
      ((metadata_item metadata VIDEO_DESCRIPTION ≫= str_with_replace)
         ≫= λ description,
         if negb (String.eqb description EmptyString)
         then _write_in_field env b (description_keys description) true;;
              log Debug "Description filled."
         else mret tt)
      (λ e, Some (_save_crash_report env "set_title_and_description_error";;
                  raise e))
      (after 7 evs st).
Proof.
  intros Hboxes Htitle evs.
  unfold set_title_and_description, try_except at 1.
  unfold mbind at 1, M_bind at 1. rewrite (wait_until_all_two st a b rest Hboxes).
  unfold mbind at 1, M_bind at 1. rewrite (metadata_there _ _ _ Htitle).
  unfold mbind at 1, M_bind at 1.
  change (_write_value_in_field env a (PStr title) true)
    with (_write_in_field env a (keys_of title) true).
  rewrite write_in_field_clearing.
  unfold mbind at 1, M_bind at 1. unfold log at 1.
  unfold try_except.
  replace (record _ (after 6 _ (bump st))) with (after 7 evs st); [done |].
  unfold evs. rewrite bump_is_after, record_after, after_after.
  by rewrite <- app_assoc.
Qed.

(** X15.  With two text boxes, a title and a description that is not
    empty, [set_title_and_description] returns normally after clearing and
    filling the first box and then the second; on text fields the first
    holds the title and the second the description, line breaks typed as
    ENTER, whatever the boxes held before. *)
Theorem set_title_and_description_fills_both (st : State)
    (title description : string) (title_field description_field : WebElement)
    (rest : list WebElement) :
  until_all env (tick st) ID TEXTBOX_ID self_wait
    = title_field :: description_field :: rest →
  metadata !! VIDEO_TITLE = Some (PStr title) →
  metadata !! VIDEO_DESCRIPTION = Some (PStr description) →
  description ≠ EmptyString →
  title_field ≠ description_field →
  let system := platform_system env in
  let evs :=
    clear_events system title_field ++
    [SendKeys title_field (keys_of title);
     Log Debug ("The video title was set to " +:+ dquote +:+ title +:+ dquote)] ++
    clear_events system description_field ++
    [SendKeys description_field (description_keys description);
     Log Debug "Description filled."] in
  set_title_and_description env metadata st = (Return tt, after 13 evs st) ∧
  ∀ f g,
    content (replay system title_field evs f) = title ∧
    content (replay system description_field evs g) = description.
Proof.
  intros Hboxes Htitle Hdesc Hne Hdiff system evs. split.
  - rewrite (title_written st title _ _ _ Hboxes Htitle). cbv zeta.
    unfold try_except. unfold mbind at 1, M_bind at 1.
    rewrite (metadata_str _ _ _ Hdesc).
    assert (String.eqb description EmptyString = false) as ->
      by by apply String.eqb_neq.
    simpl. unfold mbind at 1, M_bind at 1. rewrite write_in_field_clearing.
    unfold log. f_equal. rewrite record_after, after_after. fold system.
    unfold evs. by rewrite <- !app_assoc.
  - intros f g. unfold evs. split.
    + rewrite replay_app, replay_clear. rewrite replay_app.
      rewrite (replay_elsewhere system title_field
                 (clear_events system description_field ++ _)).
      * unfold replay. cbn [fold_left]. unfold field_event.
        rewrite element_eqb_refl. by rewrite type_text.
      * rewrite forallb_app, (clear_elsewhere _ _ _ (not_eq_sym Hdiff)). simpl.
        by rewrite (element_eqb_neq _ _ (not_eq_sym Hdiff)).
    + rewrite replay_app.
      rewrite (replay_elsewhere system description_field
                 (clear_events system title_field)) by by apply clear_elsewhere.
      rewrite replay_app.
      rewrite (replay_elsewhere system description_field [_; _]).
      * rewrite replay_app, replay_clear.
        unfold replay. cbn [fold_left]. unfold field_event.
        rewrite element_eqb_refl. by rewrite type_description.
      * simpl. by rewrite (element_eqb_neq _ _ Hdiff).
Qed.

(** X16.  With an empty description [set_title_and_description] writes
    the title and returns: no event reaches the second text box, so what
    it held stays. *)
Theorem set_title_empty_description_untouched (st : State) (title : string)
    (title_field description_field : WebElement) (rest : list WebElement) :
  until_all env (tick st) ID TEXTBOX_ID self_wait
    = title_field :: description_field :: rest →
  metadata !! VIDEO_TITLE = Some (PStr title) →
  metadata !! VIDEO_DESCRIPTION = Some (PStr EmptyString) →
  title_field ≠ description_field →
  let system := platform_system env in
  let evs :=
    clear_events system title_field ++
    [SendKeys title_field (keys_of title);
     Log Debug ("The video title was set to " +:+ dquote +:+ title +:+ dquote)] in
  set_title_and_description env metadata st = (Return tt, after 7 evs st) ∧
  forallb (λ ev, negb (on_element description_field ev)) evs = true ∧
  ∀ g, replay system description_field evs g = g.
Proof.
  intros Hboxes Htitle Hdesc Hdiff system evs.
  assert (forallb (λ ev, negb (on_element description_field ev)) evs = true)
    as Hnone.
  { unfold evs. rewrite forallb_app, (clear_elsewhere _ _ _ Hdiff). simpl.
    by rewrite (element_eqb_neq _ _ Hdiff). }
  split_and!; [| done | intros g; by apply replay_elsewhere].
  rewrite (title_written st title _ _ _ Hboxes Htitle). cbv zeta.
  unfold try_except. unfold mbind at 1, M_bind at 1.
  by rewrite (metadata_str _ _ _ Hdesc).
Qed.


(** X18.  With two text boxes, a title, no description in the metadata
    and a crash directory that can be made, [set_title_and_description]
    raises the [KeyError] of the description key, but only after the title
    has been written: the first text box holds the new title when the
    error reaches the caller. *)
Theorem set_title_missing_description (st : State) (title : string)
    (a b : WebElement) (rest : list WebElement) :
  let system := platform_system env in
  let evs :=
    clear_events system a ++
    [SendKeys a (keys_of title);
     Log Debug ("The video title was set to " +:+ dquote +:+ title +:+ dquote)] in
  let dir :=
    crash_dir "set_title_and_description_error" (now env (7 + tick st)) in
  until_all env (tick st) ID TEXTBOX_ID self_wait = a :: b :: rest →
  metadata !! VIDEO_TITLE = Some (PStr title) →
  metadata !! VIDEO_DESCRIPTION = None →
  crash_dir_free st dir →
  ∃ st' note,
    set_title_and_description env metadata st
      = (Raise (KeyError VIDEO_DESCRIPTION), st') ∧
    trace st' = trace st ++ evs ++ [Log Error note] ∧
    ∀ f, content (replay system a (evs ++ [Log Error note]) f) = title.
Proof.
  intros system evs dir Hboxes Htitle Hdesc Hfree.
  destruct (save_crash_report_run env "set_title_and_description_error"
              (after 7 evs st))
    as (st' & note & Hrun & Htr & _); [done |].
  exists st', note. split_and!.
  - rewrite (title_written st title _ _ _ Hboxes Htitle). cbv zeta.
    unfold try_except. unfold mbind at 1, M_bind at 1.
    rewrite (metadata_missing_str _ _ Hdesc).
    unfold raise at 1. by rewrite (bind_return _ _ _ _ _ Hrun).
  - rewrite Htr. simpl. by rewrite <- app_assoc.
  - intros f. unfold evs. rewrite !replay_app, replay_clear.
    unfold replay. cbn [fold_left]. unfold field_event.
    rewrite element_eqb_refl. by rewrite type_text.
Qed.

End MoreTitle.

(** * The other methods *)
Section MoreMethods.

Context `{K : Constant} `{P : PageConstant}.
Variable env : Env.
Variable host : Host.
Variable metadata : gmap string PyVal.

Ltac same_state :=
  rewrite ?bump_is_after, ?record_is_after, ?after_after; reflexivity.

(** X19.  [set_paid_promotion] only ever checks the box.  With a flag
    that is missing, [None], [False] or empty it does nothing at all, so a
    checked box stays checked; with a true flag it clicks the box once
    when it finds it unchecked and not at all when it is checked. *)
Theorem set_paid_promotion_only_checks (st : State) :
  let flag := metadata_get metadata VIDEO_PAID_PROMOTION in
  let run := set_paid_promotion env metadata st in
  clicks (trace run.2) ≤ clicks (trace st) + 1 ∧
  (truthy flag = false → run = (Return tt, st)) ∧
  (∀ el,
     truthy flag = true →
     until env (tick st) presence_of_element_located ID PAID_PROMOTION_CHECKBOX
       self_wait = Some el →
     (is_Some (get_attribute env (S (tick st)) el "checked") →
        run.1 = Return tt ∧ clicks (trace run.2) = clicks (trace st)) ∧
     (get_attribute env (S (tick st)) el "checked" = None →
        run = (Return tt,
               after 3 [ExecuteScript click_script [el];
                        Log Debug "Successfully selected 'Paid promotion'"] st))).
Proof.
  intros flag run. unfold run, set_paid_promotion. fold flag.
  destruct (truthy flag) eqn:Hflag.
  - split_and!; [| done |].
    + destruct (click_if_not_selected_clicks env (ID, PAID_PROMOTION_CHECKBOX)
                  "Paid promotion" st) as (evs & Htr & Hc).
      cbv zeta. rewrite Htr, clicks_app. lia.
    + intros el _ Hfound. cbv zeta.
      rewrite (click_if_not_selected_found env (ID, _) _ st el Hfound).
      split.
      * intros [v ->]. simpl. split; [done |].
        rewrite clicks_app. vm_compute (clicks [_]). lia.
      * by intros ->.
  - split_and!; [simpl; lia | done | done].
Qed.

(** X20.  [set_altered_content] skips only [None]: a flag that is there
    with the value [None] is like a missing one, and every other value
    toggles a radio button, "Yes" when the value is true in the sense of
    Python and "No" when it is false, as an empty string or list is. *)
Theorem set_altered_content_by_truthiness (st : State) (v : PyVal) :
  metadata !! VIDEO_ALTERED_CONTENT = Some v →
  (v = PNone → set_altered_content env metadata st = (Return tt, st)) ∧
  (v ≠ PNone →
     let xpath :=
       if truthy v then ALTERED_CONTENT_YES_RADIO else ALTERED_CONTENT_NO_RADIO in
     let answer := if truthy v then "Yes" else "No" in
     ∀ el,
       until env (tick st) presence_of_element_located XPATH xpath self_wait
         = Some el →
       get_attribute env (S (tick st)) el "checked" = None →
       set_altered_content env metadata st =
         (Return tt,
          after 3 [ExecuteScript click_script [el];
                   Log Debug ("Successfully selected 'Altered content: "
                              +:+ answer +:+ "'")] st)).
Proof.
  intros Hv. unfold set_altered_content, metadata_get. rewrite Hv. simpl. split.
  - by intros ->.
  - intros Hne el Hfound Hattr.
    pose proof (click_if_not_selected_found env (XPATH, _)
                  ("Altered content: " +:+ (if truthy v then "Yes" else "No"))
                  st el Hfound) as Hrun.
    rewrite Hattr in Hrun. by destruct v.
Qed.

(** ** Tags *)

Lemma element_find_element_found (st : State) (el child : WebElement)
    (by_ : By) (value : string) :
  child_element host (tick st) el by_ value = Some child →
  element_find_element host el by_ value st = (Return child, bump st).
Proof.
  intros H. unfold element_find_element, ask, mbind, M_bind. by rewrite H.
Qed.

(** X21.  With a list of tags that is not empty, [set_tags] finds the
    container and the input in it and types the tags joined by commas,
    after a click and without clearing: on a text field the text goes
    behind what was there. *)
Theorem set_tags_types_joined_tags (st : State) (tags : list string)
    (container input : WebElement) :
  metadata !! VIDEO_TAGS = Some (PList tags) →
  tags ≠ [] →
  until env (tick st) presence_of_element_located ID TAGS_CONTAINER_ID self_wait
    = Some container →
  child_element host (S (tick st)) container ID TAGS_INPUT = Some input →
  let joined := str_join "," tags in
  let evs :=
    [Click input; Sleep ACTION_WAIT_TIME; SendKeys input (keys_of joined);
     Log Debug ("Set tags to: " +:+ format_value host (PList tags))] in
  set_tags env host metadata st = (Return tt, after 5 evs st) ∧
  ∀ old selected,
    replay (platform_system env) input evs
      {| content := old; all_selected := selected |}
      = {| content := old +:+ joined; all_selected := false |}.
Proof.
  intros Htags Hne Hfound Hchild joined evs. split.
  - unfold set_tags, metadata_get. rewrite Htags. simpl.
    destruct tags as [|t tags]; [done |].
    rewrite (bind_return _ _ _ _ _ (find_element_found env _ _ _ None _ _ Hfound)).
    rewrite (bind_return _ _ _ _ _
               (element_find_element_found (bump st) _ _ _ _ Hchild)).
    unfold join_tags. unfold mbind at 1, M_bind at 1, mret at 1, M_ret at 1.
    unfold mbind at 1, M_bind at 1. rewrite write_in_field_typing.
    unfold log. f_equal. unfold evs, joined. same_state.
  - intros old selected. unfold evs, replay. cbn [fold_left].
    unfold field_event. rewrite !element_eqb_refl.
    cbn [content all_selected]. by rewrite type_text.
Qed.

(** X22.  When the container is found and the input in it is not,
    [set_tags] raises the [NoSuchElementException] of the nested lookup as
    it is: nothing is logged, no crash report is made, nothing is typed. *)
Theorem set_tags_input_missing (st : State) (tags : PyVal) (container : WebElement) :
  metadata !! VIDEO_TAGS = Some tags →
  truthy tags = true →
  until env (tick st) presence_of_element_located ID TAGS_CONTAINER_ID self_wait
    = Some container →
  child_element host (S (tick st)) container ID TAGS_INPUT = None →
  set_tags env host metadata st
    = (Raise (NoSuchElementException EmptyString), after 2 [] st).
Proof.
  intros Htags Htruthy Hfound Hchild.
  unfold set_tags, metadata_get. rewrite Htags. simpl. rewrite Htruthy.
  rewrite (bind_return _ _ _ _ _ (find_element_found env _ _ _ None _ _ Hfound)).
  unfold element_find_element, ask, mbind, M_bind. simpl. rewrite Hchild.
  unfold raise. f_equal. same_state.
Qed.

Lemma length_join_chars (l : list ascii) :
  l ≠ [] →
  String.length (str_join "," (map (λ c, String c EmptyString) l))
    = 2 * length l - 1.
Proof.
  induction l as [|c [|d l] IH]; intros H; [done | done |].
  specialize (IH ltac:(done)).
  change (str_join "," (map (λ c, String c EmptyString) (c :: d :: l)))
    with (String c (String "," (str_join ","
            (map (λ c, String c EmptyString) (d :: l))))).
  cbn [String.length]. rewrite IH. simpl. lia.
Qed.

(** X23.  Tags given as one string instead of a list are joined
    character by character: for a string of [n] characters [set_tags]
    types [2n - 1] characters, every other one a comma. *)
Theorem set_tags_string_is_split (st : State) (tags : string)
    (container input : WebElement) :
  metadata !! VIDEO_TAGS = Some (PStr tags) →
  tags ≠ EmptyString →
  until env (tick st) presence_of_element_located ID TAGS_CONTAINER_ID self_wait
    = Some container →
  child_element host (S (tick st)) container ID TAGS_INPUT = Some input →
  let joined := str_join "," (chars tags) in
  set_tags env host metadata st =
    (Return tt,
     after 5 [Click input; Sleep ACTION_WAIT_TIME; SendKeys input (keys_of joined);
              Log Debug ("Set tags to: " +:+ format_value host (PStr tags))] st) ∧
  String.length joined = 2 * String.length tags - 1.
Proof.
  intros Htags Hne Hfound Hchild joined. split.
  - unfold set_tags, metadata_get. rewrite Htags. simpl.
    assert (String.eqb tags EmptyString = false) as -> by by apply String.eqb_neq.
    simpl.
    rewrite (bind_return _ _ _ _ _ (find_element_found env _ _ _ None _ _ Hfound)).
    rewrite (bind_return _ _ _ _ _
               (element_find_element_found (bump st) _ _ _ _ Hchild)).
    unfold join_tags. unfold mbind at 1, M_bind at 1, mret at 1, M_ret at 1.
    unfold mbind at 1, M_bind at 1. rewrite write_in_field_typing.
    unfold log. f_equal. unfold joined. same_state.
  - unfold joined, chars. rewrite length_join_chars.
    + f_equal. f_equal. clear. induction tags as [|c s IH]; simpl; [done | by rewrite IH].
    + destruct tags; done.
Qed.

(** ** The three "Next" pages *)

Lemma error_logs_no_click (evs : list Event) :
  forallb is_error_log evs = true → clicks evs = 0.
Proof.
  induction evs as [|ev evs IH]; [done |]. simpl.
  intros [Hev Hevs]%andb_true_iff. specialize (IH Hevs).
  unfold clicks in *. simpl. by destruct ev as [[] | | | |].
Qed.

Lemma click_next_found (i : nat) (st : State) (button : WebElement) :
  until env (tick st) element_to_be_clickable ID NEXT_BUTTON self_wait
    = Some button →
  click_next env i st =
    (Return tt, after 3 [Click button; next_log (pretty (i + 1)); Sleep (1 # 2)] st).
Proof.
  intros H. unfold click_next.
  rewrite (bind_return _ _ _ _ _ (find_element_found env _ _ _ None _ _ H)).
  unfold sleep, act, log, mbind, M_bind, next_log. simpl. same_state.
Qed.

(** One turn clicks once when it returns, and not at all when it
    raises. *)
Lemma click_next_clicks (i : nat) (st : State) :
  ∃ evs,
    trace (click_next env i st).2 = trace st ++ evs ∧
    match (click_next env i st).1 with
    | Return _ => clicks evs = 1
    | Raise _ => clicks evs = 0
    end.
Proof.
  destruct (_find_element env ID NEXT_BUTTON element_to_be_clickable None st)
    as [[el | e] st1] eqn:Hfind.
  - apply find_element_Return in Hfind as [Hfound ->].
    rewrite (click_next_found i st el Hfound). simpl. by eexists.
  - destruct (find_element_error_logs env ID NEXT_BUTTON
                element_to_be_clickable None st) as (evs & Htr & Hlog & _).
    unfold click_next. rewrite (bind_raise _ _ _ _ _ Hfind).
    rewrite Hfind in Htr. simpl in *. exists evs.
    split; [done | by apply error_logs_no_click].
Qed.

Lemma for_range_click_next_clicks (n : nat) :
  ∀ i st, ∃ evs,
    trace (for_range i n (click_next env) st).2 = trace st ++ evs ∧
    clicks evs ≤ n ∧
    ((for_range i n (click_next env) st).1 = Return tt → clicks evs = n).
Proof.
  induction n as [|n IH]; intros i st.
  - exists []. rewrite app_nil_r. split_and!; [done | by vm_compute | done].
  - simpl. unfold mbind, M_bind.
    destruct (click_next_clicks i st) as (evs & Htr & Hc).
    destruct (click_next env i st) as [[[] | e] st1]; simpl in *.
    + destruct (IH (S i) st1) as (evs' & Htr' & Hle & Heq).
      exists (evs ++ evs'). rewrite Htr', Htr, <- app_assoc, clicks_app.
      split_and!; [done | lia |]. intros Hret. rewrite (Heq Hret). lia.
    + exists evs. split_and!; [done | lia | done].
Qed.

(** X24.  [navigate_to_visibility_page] clicks at most three times, and
    three times exactly when it returns normally; when a lookup of the
    button raises, the clicks made before it stay made. *)
Theorem navigate_clicks_at_most_three (st : State) :
  ∃ evs,
    trace (navigate_to_visibility_page env st).2 = trace st ++ evs ∧
    clicks evs ≤ 3 ∧
    ((navigate_to_visibility_page env st).1 = Return tt → clicks evs = 3).
Proof. apply for_range_click_next_clicks. Qed.

(** When the button is found three times,
    [navigate_to_visibility_page] clicks it three times, each click
    followed by its line in the log, numbered from 1, and half a second of
    sleep. *)
Lemma navigate_three_clicks (st : State) (b1 b2 b3 : WebElement) :
  until env (tick st) element_to_be_clickable ID NEXT_BUTTON self_wait = Some b1 →
  until env (3 + tick st) element_to_be_clickable ID NEXT_BUTTON self_wait
    = Some b2 →
  until env (6 + tick st) element_to_be_clickable ID NEXT_BUTTON self_wait
    = Some b3 →
  navigate_to_visibility_page env st =
    (Return tt,
     after 9 [Click b1; next_log "1"; Sleep (1 # 2);
              Click b2; next_log "2"; Sleep (1 # 2);
              Click b3; next_log "3"; Sleep (1 # 2)] st).
Proof.
  intros H1 H2 H3. unfold navigate_to_visibility_page. simpl.
  rewrite (bind_return _ _ _ _ _ (click_next_found 0 st b1 H1)).
  rewrite (bind_return _ _ _ _ _ (click_next_found 1 (after 3 _ st) b2 H2)).
  rewrite (bind_return _ _ _ _ _
             (click_next_found 2 (after 3 _ (after 3 _ st)) b3 H3)).
  unfold mret, M_ret. f_equal. by rewrite !after_after.
Qed.

(** X25.  When the button is found once, the second wait times out and
    the crash directory of that lookup can be made,
    [navigate_to_visibility_page] raises the timeout error with the first
    click made: the dialog is left one page on. *)
Theorem navigate_second_lookup_times_out (st : State) (b1 : WebElement) :
  let dir :=
    crash_dir (timeout_operation_name NEXT_BUTTON) (now env (4 + tick st)) in
  until env (tick st) element_to_be_clickable ID NEXT_BUTTON self_wait = Some b1 →
  until env (3 + tick st) element_to_be_clickable ID NEXT_BUTTON self_wait = None →
  crash_dir_free st dir →
  ∃ st' note,
    navigate_to_visibility_page env st = (Raise (TimeoutException EmptyString), st') ∧
    trace st' =
      trace st ++
        [Click b1; next_log "1"; Sleep (1 # 2);
         Log Error ("TimeoutException while trying to find element: "
                    +:+ NEXT_BUTTON);
         Log Error note].
Proof.
  intros dir H1 H2 Hfree.
  set (st1 := after 3 [Click b1; next_log (pretty (0 + 1)); Sleep (1 # 2)] st).
  destruct (find_element_timeout_run env ID NEXT_BUTTON element_to_be_clickable
              None st1 H2 Hfree) as (st' & note & Hrun & Htr & _).
  exists st', note. split.
  - unfold navigate_to_visibility_page. simpl.
    rewrite (bind_return _ _ _ _ _ (click_next_found 0 st b1 H1)). fold st1.
    assert (click_next env 1 st1 = (Raise (TimeoutException EmptyString), st')) as Hnext.
    { unfold click_next. by rewrite (bind_raise _ _ _ _ _ Hrun). }
    by rewrite (bind_raise _ _ _ _ _ Hnext).
  - rewrite Htr. simpl. by rewrite <- app_assoc.
Qed.

(** ** Visibility *)

(** X26.  Without a visibility in the metadata [set_visibility] toggles
    the radio button named by the upper case of [Constant.PRIVATE_BUTTON]:
    found unchecked, that button gets the one click. *)
Theorem set_visibility_defaults_to_private (st : State) (el : WebElement) :
  let name := str_upper host PRIVATE_BUTTON in
  metadata !! VIDEO_VISIBILITY = None →
  until env (tick st) presence_of_element_located XPATH
    ("//tp-yt-paper-radio-button[@name='" +:+ name +:+ "']") self_wait = Some el →
  get_attribute env (S (tick st)) el "checked" = None →
  set_visibility env host metadata st =
    (Return tt,
     after 3 [ExecuteScript click_script [el];
              Log Debug ("Successfully selected 'Visibility: " +:+ name +:+ "'")]
       st).
Proof.
  intros name Hnone Hfound Hattr.
  unfold set_visibility, metadata_get_default. rewrite Hnone. simpl.
  unfold mbind at 1, M_bind at 1, mret at 1, M_ret at 1. fold name.
  by rewrite (click_if_not_selected_found env (XPATH, visibility_xpath name)
                _ st el Hfound), Hattr.
Qed.

(** X27.  A visibility that is there and is not a string, [None]
    included, does not fall back to private: [set_visibility] raises an
    attribute error before any lookup. *)
Theorem set_visibility_not_a_string (st : State) (v : PyVal) :
  metadata !! VIDEO_VISIBILITY = Some v →
  (∀ s, v ≠ PStr s) →
  set_visibility env host metadata st =
    (Raise (AttributeError
              ("'" +:+ type_name v +:+ "' object has no attribute 'upper'")),
     st).
Proof.
  intros Hv Hns. unfold set_visibility, metadata_get_default. rewrite Hv. simpl.
  destruct v; try done. by destruct (Hns s).
Qed.

(** ** The file inputs and the advanced options *)

Lemma click_free_bind {A B} (m : M A) (f : A → M B) :
  click_free m → (∀ a, click_free (f a)) → click_free (m ≫= f).
Proof.
  intros Hm Hf st. unfold mbind, M_bind.
  destruct (Hm st) as (evs & Htr & Hc).
  destruct (m st) as [[a | e] st1]; simpl in *.
  - destruct (Hf a st1) as (evs' & Htr' & Hc').
    exists (evs ++ evs'). rewrite Htr', Htr, <- app_assoc, clicks_app.
    split; [done | lia].
  - by exists evs.
Qed.

Lemma click_free_event (ev : Event) : is_click ev = false → click_free (act ev).
Proof.
  intros H st. exists [ev]. split; [done |]. unfold clicks. simpl. by rewrite H.
Qed.

Lemma click_free_log (level : Level) (msg : string) : click_free (log level msg).
Proof. intros st. by exists [Log level msg]. Qed.

Lemma click_free_find_element (by_ : By) (value : string)
    (condition : Condition) (timeout : option Z) :
  click_free (_find_element env by_ value condition timeout).
Proof. intros st. apply find_element_trace. Qed.

(** X28.  [attach_video] and [set_thumbnail] never click: whatever the
    page does, the file inputs get keys only. *)
Theorem file_inputs_never_clicked (path : string) (st : State) :
  clicks (trace (attach_video env host path st).2) = clicks (trace st) ∧
  clicks (trace (set_thumbnail env host path st).2) = clicks (trace st).
Proof.
  assert (click_free (attach_video env host path)) as Hvideo.
  { unfold attach_video. apply click_free_bind; [apply click_free_find_element |].
    intros el. apply click_free_bind; [by apply click_free_event |].
    intros _. apply click_free_log. }
  assert (click_free (set_thumbnail env host path)) as Hthumb.
  { unfold set_thumbnail. apply click_free_bind; [apply click_free_log |].
    intros _. apply click_free_bind; [apply click_free_find_element |].
    intros _. apply click_free_bind; [by apply click_free_event |].
    intros _. apply click_free_bind; [apply click_free_find_element |].
    intros el. apply click_free_bind; [by apply click_free_event |].
    intros _. apply click_free_log. }
  destruct (Hvideo st) as (evs & -> & Hc), (Hthumb st) as (evs' & -> & Hc').
  rewrite !clicks_app. lia.
Qed.

(** X29.  [set_thumbnail] runs its script, which shows the hidden input,
    only once the placeholder is found, and looks the input up after it:
    on success the events are the script and then the absolute path typed
    into the input; when the wait for the placeholder times out no script
    runs and nothing is typed. *)
Theorem set_thumbnail_shows_then_attaches (path : string) (st : State) :
  (∀ placeholder input,
     until env (tick st) presence_of_element_located ID THUMBNAIL_PLACEHOLDER_ID
       self_wait = Some placeholder →
     until env (2 + tick st) presence_of_element_located ID
       INPUT_FILE_THUMBNAIL_ID self_wait = Some input →
     set_thumbnail env host path st =
       (Return tt,
        after 4 [Log Debug "Setting thumbnail...";
                 ExecuteScript (show_input_script INPUT_FILE_THUMBNAIL_ID) [];
                 SendKeys input (keys_of (cwd_path host path));
                 Log Debug ("Attached thumbnail: " +:+ path)] st)) ∧
  (until env (tick st) presence_of_element_located ID THUMBNAIL_PLACEHOLDER_ID
     self_wait = None →
   (set_thumbnail env host path st).1 ≠ Return tt ∧
   ∃ evs,
     trace (set_thumbnail env host path st).2
       = trace st ++ Log Debug "Setting thumbnail..." :: evs ∧
     forallb is_error_log evs = true).
Proof.
  split.
  - intros placeholder input Hp Hi. unfold set_thumbnail.
    rewrite (bind_return (log _ _) _ st _ tt eq_refl).
    rewrite (bind_return _ _ _ _ _
               (find_element_found env _ _ _ None
                  (record (Log Debug "Setting thumbnail...") st) _ Hp)).
    rewrite (bind_return (act _) _ _ _ tt eq_refl).
    rewrite (bind_return _ _ _ _ _
               (find_element_found env _ _ _ None
                  (bump (record _ (bump (record _ st)))) _ Hi)).
    rewrite (bind_return (act _) _ _ _ tt eq_refl).
    unfold log. f_equal. same_state.
  - intros Hp.
    set (st0 := record (Log Debug "Setting thumbnail...") st).
    destruct (find_element_error_logs env ID THUMBNAIL_PLACEHOLDER_ID
                presence_of_element_located None st0) as (evs & Htr & Hlog & _).
    destruct (_find_element env ID THUMBNAIL_PLACEHOLDER_ID
                presence_of_element_located None st0) as [[el | e] st1] eqn:Hfind.
    + apply find_element_Return in Hfind as [Hfound _]. simpl in Hfound.
      congruence.
    + assert (set_thumbnail env host path st = (Raise e, st1)) as ->.
      { unfold set_thumbnail.
        rewrite (bind_return (log _ _) _ st _ tt eq_refl).
        by rewrite (bind_raise _ _ _ _ _ Hfind). }
      simpl in *. split; [done |]. exists evs.
      rewrite Htr. by rewrite <- app_assoc.
Qed.

(** [disclose_advanced_options] scrolls the button into view and
    then clicks it, once, when the button is found clickable; when the
    wait times out it neither scrolls nor clicks. *)
Lemma disclose_advanced_options_scrolls_then_clicks (st : State) :
  (∀ button,
     until env (tick st) element_to_be_clickable ID ADVANCED_BUTTON_ID self_wait
       = Some button →
     disclose_advanced_options env st =
       (Return tt,
        after 3 [ExecuteScript scroll_script [button]; Click button;
                 Log Debug ("Clicked " +:+ dquote +:+ "Show More" +:+ dquote)]
          st)) ∧
  (until env (tick st) element_to_be_clickable ID ADVANCED_BUTTON_ID self_wait
     = None →
   (disclose_advanced_options env st).1 ≠ Return tt ∧
   ∃ evs,
     trace (disclose_advanced_options env st).2 = trace st ++ evs ∧
     forallb is_error_log evs = true).
Proof.
  split.
  - intros button Hb. unfold disclose_advanced_options.
    rewrite (bind_return _ _ _ _ _ (find_element_found env _ _ _ None _ _ Hb)).
    unfold act, log, mbind, M_bind. simpl. same_state.
  - intros Hb.
    destruct (find_element_error_logs env ID ADVANCED_BUTTON_ID
                element_to_be_clickable None st) as (evs & Htr & Hlog & _).
    destruct (_find_element env ID ADVANCED_BUTTON_ID element_to_be_clickable
                None st) as [[el | e] st1] eqn:Hfind.
    + apply find_element_Return in Hfind as [Hfound _]. unfold wait_for in Hfound.
      congruence.
    + assert (disclose_advanced_options env st = (Raise e, st1)) as ->.
      { unfold disclose_advanced_options. by rewrite (bind_raise _ _ _ _ _ Hfind). }
      simpl in *. split; [done |]. by exists evs.
Qed.

End MoreMethods.

(** * More on concrete pages *)

Lemma find_element_timeout_raises_file_exists_witness :
  let env := page_without (Return "PNG") [] in
  (_find_element env XPATH "//a/b" presence_of_element_located None
     crashed_before).1
    = Raise (FileExistsError "crash/find_element_timeout_a_b_2025-03-09_12-00-05").
Proof.
  intros env.
  rewrite (find_element_timeout_raises_file_exists env XPATH "//a/b"
             presence_of_element_located None crashed_before).
  - reflexivity.
  - reflexivity.
  - apply elem_of_union_l. by apply elem_of_singleton.
  - apply elem_of_union_r. by apply elem_of_singleton.
Defined.

Lemma save_crash_report_catches_driver_errors_witness :
  let env := page_without (Raise (WebDriverException "no such window")) [] in
  ∃ st',
    _save_crash_report env "set_title_and_description_error" start
      = (Return tt, st') ∧
    trace st' =
      [Log Error ("Failed to save crash report: "
                  +:+ exn_str (WebDriverException "no such window"))].
Proof.
  intros env.
  destruct (save_crash_report_catches_driver_errors env
              "set_title_and_description_error" start)
    as (st' & note & Hrun & Htr & Hshot & _).
  - apply start_crash_dir_free.
  - exists st'. split; [exact Hrun |].
    rewrite Htr. rewrite (Hshot (WebDriverException "no such window"));
      reflexivity.
Defined.

Lemma save_crash_report_keeps_disk_witness :
  let env := page_without (Return "PNG") [] in
  let st' := (_save_crash_report env "set_title_and_description_error" with_notes).2 in
  "videos" ∈ dirs st' ∧ files st' !! "videos/notes.txt" = Some "notes".
Proof.
  intros env st'.
  destruct (save_crash_report_keeps_disk env "set_title_and_description_error"
              with_notes "videos/notes.txt") as [Hdirs Hfiles].
  - discriminate.
  - discriminate.
  - split.
    + apply Hdirs. change ("videos" ∈ ({["videos"]} : gset string)).
      by apply elem_of_singleton.
    + unfold st'. rewrite Hfiles. reflexivity.
Defined.

Lemma save_crash_report_page_source_fails_witness :
  let dir := "crash/set_title_and_description_error_2025-03-09_12-00-05" in
  ∃ st',
    _save_crash_report page_closing "set_title_and_description_error" start
      = (Return tt, st') ∧
    files st' !! (dir +:+ "/crash_screenshot.png") = Some "PNG" ∧
    files st' !! (dir +:+ "/crash_page.html") = Some EmptyString.
Proof.
  intros dir.
  destruct (save_crash_report_page_source_fails page_closing
              "set_title_and_description_error" start "PNG"
              (WebDriverException "no such window"))
    as (st' & Hrun & Hshot & Hhtml & _).
  - apply start_crash_dir_free.
  - reflexivity.
  - reflexivity.
  - exists st'. split_and!; [exact Hrun | exact Hshot | exact Hhtml].
Defined.

Lemma wait_for_upload_polls_without_bound_witness :
  let env := page_showing "Processing HD version" (λ _, None) in
  ∃ st',
    @wait_for_upload_to_complete sample_constants env 4 start = (Return None, st') ∧
    tick st' = 12.
Proof.
  intros env.
  destruct (@wait_for_upload_polls_without_bound sample_constants env 4 start)
    as (st' & Hrun & Htick & _).
  - intros t. by exists (Element 1).
  - intros t el H. apply PyStrFacts.contains_any_case_iff in H;
      [discriminate H | reflexivity].
  - intros t el H. apply PyStrFacts.contains_any_case_iff in H;
      [discriminate H | reflexivity].
  - exists st'. split; [exact Hrun | exact Htick].
Defined.

Lemma wait_iteration_first_log_line_witness :
  let env := page_showing "Processing HD version" (λ _, None) in
  ∃ ev,
    trace (@wait_iteration sample_constants env 10 start).2
      = [Log Debug "Upload status: Processing HD version"; ev].
Proof.
  intros env.
  destruct (@wait_iteration_first_log_line sample_constants env start (Element 1))
    as (note & ev & Htr & _ & Hraw).
  - reflexivity.
  - exists ev. rewrite Htr. rewrite Hraw; [reflexivity |].
    intros Hp. assert (re_search "Processing HD version" = None) as Hnone
      by reflexivity.
    by apply PyStrFacts.re_search_None in Hnone.
Defined.

Lemma publish_video_always_clicks_done_witness :
  let env' := page_showing EmptyString (λ _, None) in
  ∃ n,
    @publish_video sample_constants env' start =
      (Return tt,
       after n [Click (Element 1); Log Debug "Publish button clicked"] start).
Proof.
  intros env'.
  destruct (@publish_video_always_clicks_done sample_constants env' start
              (Element 1)) as (n & Hrun & _).
  - reflexivity.
  - exists n. exact Hrun.
Defined.

Lemma get_video_id_last_segment_witness :
  let env :=
    page_showing EmptyString
      (λ name, if String.eqb name "href" then Some "https://youtu.be/" else None) in
  @get_video_id sample_constants env start
    = (Return (Some EmptyString), after 2 [] start).
Proof.
  intros env.
  apply (@get_video_id_last_segment sample_constants env start (Element 1)
           "https://youtu.be" EmptyString); reflexivity.
Defined.

Lemma get_video_id_has_no_slash_witness :
  no_slash "dQw4w9WgXcQ" = true.
Proof.
  apply (@get_video_id_has_no_slash sample_constants
           (page_showing EmptyString
              (λ name, if String.eqb name "href"
                       then Some "https://youtu.be/dQw4w9WgXcQ" else None))
           start (after 2 [] start) "dQw4w9WgXcQ").
  reflexivity.
Defined.

Lemma set_title_and_description_fills_both_witness :
  let env := page_showing EmptyString (λ _, None) in
  ∃ evs,
    @set_title_and_description sample_constants env
      (sample_metadata "About cats") start = (Return tt, after 13 evs start) ∧
    content (replay "Linux" (Element 1) evs
               {| content := "old title"; all_selected := false |}) = "My video" ∧
    content (replay "Linux" (Element 2) evs
               {| content := "old text"; all_selected := false |}) = "About cats".
Proof.
  intros env.
  destruct (@set_title_and_description_fills_both sample_constants env
              (sample_metadata "About cats") start "My video" "About cats"
              (Element 1) (Element 2) [])
    as (Hrun & Hfields); try reflexivity; try discriminate.
  eexists. split; [exact Hrun |].
  apply (Hfields {| content := "old title"; all_selected := false |}
                 {| content := "old text"; all_selected := false |}).
Defined.

Lemma set_title_empty_description_untouched_witness :
  let env := page_showing EmptyString (λ _, None) in
  ∃ evs,
    @set_title_and_description sample_constants env
      (sample_metadata EmptyString) start = (Return tt, after 7 evs start) ∧
    replay "Linux" (Element 2) evs {| content := "old text"; all_selected := false |}
      = {| content := "old text"; all_selected := false |}.
Proof.
  intros env.
  destruct (@set_title_empty_description_untouched sample_constants env
              (sample_metadata EmptyString) start "My video"
              (Element 1) (Element 2) [])
    as (Hrun & _ & Hfield); try reflexivity; try discriminate.
  eexists. split; [exact Hrun | apply Hfield].
Defined.


Lemma set_title_missing_description_witness :
  let env := page_showing EmptyString (λ _, None) in
  ∃ st',
    @set_title_and_description sample_constants env {["title" := PStr "My video"]}
      start = (Raise (KeyError "description"), st').
Proof.
  intros env.
  destruct (@set_title_missing_description sample_constants env
              {["title" := PStr "My video"]} start "My video"
              (Element 1) (Element 2) [])
    as (st' & note & Hrun & _).
  - reflexivity.
  - reflexivity.
  - reflexivity.
  - apply start_crash_dir_free.
  - exists st'. exact Hrun.
Defined.

Lemma wait_for_upload_never_times_out_witness :
  (@wait_for_upload_to_complete sample_constants
     (page_without (Return "PNG") []) 3 start).1
    ≠ Raise (TimeoutException EmptyString).
Proof.
  apply (@wait_for_upload_never_times_out sample_constants
           (page_without (Return "PNG") []) 3 start EmptyString).
Defined.

Lemma set_paid_promotion_only_checks_witness :
  let env := page_showing EmptyString (λ _, None) in
  @set_paid_promotion sample_page_constants env
    {["paid_promotion" := PBool true]} start
    = (Return tt,
       after 3 [ExecuteScript click_script [Element 1];
                Log Debug "Successfully selected 'Paid promotion'"] start).
Proof.
  intros env.
  destruct (@set_paid_promotion_only_checks sample_page_constants
              env {["paid_promotion" := PBool true]} start) as (_ & _ & Hrun).
  destruct (Hrun (Element 1)) as [_ Hclick].
  - reflexivity.
  - reflexivity.
  - apply Hclick. reflexivity.
Defined.

Lemma set_altered_content_by_truthiness_witness :
  let env := page_showing EmptyString (λ _, None) in
  @set_altered_content sample_constants env
    {["altered_content" := PStr EmptyString]} start
    = (Return tt,
       after 3 [ExecuteScript click_script [Element 1];
                Log Debug "Successfully selected 'Altered content: No'"] start).
Proof.
  intros env.
  destruct (@set_altered_content_by_truthiness sample_constants env
              {["altered_content" := PStr EmptyString]} start (PStr EmptyString))
    as [_ Hrun].
  - reflexivity.
  - apply (Hrun ltac:(discriminate) (Element 1)); reflexivity.
Defined.

Lemma set_tags_types_joined_tags_witness :
  let env := page_showing EmptyString (λ _, None) in
  ∃ evs,
    @set_tags sample_constants sample_page_constants env (sample_host true)
      (sample_metadata "About cats") start = (Return tt, after 5 evs start) ∧
    replay "Linux" (Element 7) evs {| content := "birds,"; all_selected := false |}
      = {| content := "birds,cats,dogs"; all_selected := false |}.
Proof.
  intros env.
  destruct (@set_tags_types_joined_tags sample_constants sample_page_constants env
              (sample_host true) (sample_metadata "About cats") start
              ["cats"; "dogs"] (Element 1) (Element 7))
    as [Hrun Hfield]; try reflexivity; try discriminate.
  eexists. split; [exact Hrun |].
  apply (Hfield "birds," false).
Defined.

Lemma set_tags_input_missing_witness :
  let env := page_showing EmptyString (λ _, None) in
  @set_tags sample_constants sample_page_constants env (sample_host false)
    (sample_metadata "About cats") start
    = (Raise (NoSuchElementException EmptyString), after 2 [] start).
Proof.
  intros env.
  apply (@set_tags_input_missing sample_constants sample_page_constants env
           (sample_host false) (sample_metadata "About cats") start
           (PList ["cats"; "dogs"]) (Element 1)); reflexivity.
Defined.

Lemma set_tags_string_is_split_witness :
  let env := page_showing EmptyString (λ _, None) in
  @set_tags sample_constants sample_page_constants env (sample_host true)
    {["tags" := PStr "cat"]} start
    = (Return tt,
       after 5 [Click (Element 7); Sleep (1 # 10);
                SendKeys (Element 7) (keys_of "c,a,t");
                Log Debug "Set tags to: cat"] start).
Proof.
  intros env.
  destruct (@set_tags_string_is_split sample_constants sample_page_constants env
              (sample_host true) {["tags" := PStr "cat"]} start "cat"
              (Element 1) (Element 7))
    as [Hrun _].
  - reflexivity.
  - discriminate.
  - reflexivity.
  - reflexivity.
  - exact Hrun.
Defined.

Lemma navigate_clicks_at_most_three_witness :
  let env := page_showing EmptyString (λ _, None) in
  ∃ evs,
    trace (@navigate_to_visibility_page sample_page_constants env start).2 = evs ∧
    clicks evs = 3.
Proof.
  intros env.
  destruct (@navigate_clicks_at_most_three sample_page_constants env start)
    as (evs & Htr & _ & Hthree).
  exists evs. split; [exact Htr |].
  apply Hthree. reflexivity.
Defined.

Lemma navigate_second_lookup_times_out_witness :
  ∃ st',
    @navigate_to_visibility_page sample_page_constants (page_until 3) start
      = (Raise (TimeoutException EmptyString), st') ∧
    clicks (trace st') = 1.
Proof.
  destruct (@navigate_second_lookup_times_out sample_page_constants (page_until 3)
              start (Element 1)) as (st' & note & Hrun & Htr).
  - reflexivity.
  - reflexivity.
  - apply start_crash_dir_free.
  - exists st'. split; [exact Hrun |]. rewrite Htr. reflexivity.
Defined.

Lemma set_visibility_defaults_to_private_witness :
  let env := page_showing EmptyString (λ _, None) in
  @set_visibility sample_page_constants env (sample_host true)
    ∅ start
    = (Return tt,
       after 3 [ExecuteScript click_script [Element 1];
                Log Debug "Successfully selected 'Visibility: PRIVATE'"] start).
Proof.
  intros env.
  apply (@set_visibility_defaults_to_private sample_page_constants
           env (sample_host true) ∅ start (Element 1)); reflexivity.
Defined.

Lemma set_visibility_not_a_string_witness :
  let env := page_showing EmptyString (λ _, None) in
  @set_visibility sample_page_constants env (sample_host true)
    {["visibility" := PNone]} start
    = (Raise (AttributeError "'NoneType' object has no attribute 'upper'"), start).
Proof.
  intros env.
  apply (@set_visibility_not_a_string sample_page_constants env
           (sample_host true) {["visibility" := PNone]} start PNone).
  - reflexivity.
  - discriminate.
Defined.

Lemma set_thumbnail_shows_then_attaches_witness :
  let env := page_showing EmptyString (λ _, None) in
  @set_thumbnail sample_page_constants env (sample_host true)
    "thumb.png" start
    = (Return tt,
       after 4 [Log Debug "Setting thumbnail...";
                ExecuteScript
                  "document.getElementById('file-loader').style.display = 'block';" [];
                SendKeys (Element 1) (keys_of "/home/toob/thumb.png");
                Log Debug "Attached thumbnail: thumb.png"] start).
Proof.
  intros env.
  destruct (@set_thumbnail_shows_then_attaches sample_page_constants env (sample_host true) "thumb.png" start)
    as [Hrun _].
  apply (Hrun (Element 1) (Element 1)); reflexivity.
Defined.

